(** * The [Backend] base class of [lightning_app.runners.backends.backend]

    A shallow embedding of the concrete methods of [Backend]
    ([_dynamic_run_wrapper], [_wrap_run_method], [_prepare_queues],
    [_register_queues]) over an explicit Python heap, and the properties of
    the run-interception path that the specification states about them. *)

From stdpp Require Import base gmap strings.

Local Open Scope string_scope.

(** ** Queue fabric *)

(** The ten roles a channel can play. *)
Inductive Role :=
| Caller
| OrchestratorRequest
| OrchestratorResponse
| OrchestratorCopyRequest
| OrchestratorCopyResponse
| Delta
| Readiness
| Error
| ApiStatePublish
| ApiDelta.

(** Modelled from the spec: [lightning_app.core.queues] is not part of the
    sources.  The specification describes the queue fabric as channels
    "identified by (queue_id, work_name, role)" whose getters have the shape
    [get_<role>_queue(queue_id, work_name=None) -> QueueHandle]; a handle is
    therefore the triple that identifies its channel. *)
Record QueueHandle := mkQueue {
  q_role : Role;
  q_queue_id : string;
  q_work_name : option string
}.

(** Modelled from the spec: the getters of [QueuingSystem] that [Backend]
    calls, as functions from the identifying arguments to a handle.  Every
    theorem below holds for an arbitrary implementation of this interface. *)
Record QueuingSystem := {
  get_delta_queue : string -> QueueHandle;
  get_readiness_queue : string -> QueueHandle;
  get_error_queue : string -> QueueHandle;
  get_api_state_publish_queue : string -> QueueHandle;
  get_api_delta_queue : string -> QueueHandle;
  get_orchestrator_request_queue : string -> string -> QueueHandle;
  get_orchestrator_response_queue : string -> string -> QueueHandle;
  get_orchestrator_copy_request_queue : string -> string -> QueueHandle;
  get_orchestrator_copy_response_queue : string -> string -> QueueHandle;
  get_caller_queue : string -> string -> QueueHandle
}.

(** The fabric of the specification: each getter returns the handle of the
    channel named by its arguments and its role. *)
Definition fabric : QueuingSystem := {|
  get_delta_queue q := mkQueue Delta q None;
  get_readiness_queue q := mkQueue Readiness q None;
  get_error_queue q := mkQueue Error q None;
  get_api_state_publish_queue q := mkQueue ApiStatePublish q None;
  get_api_delta_queue q := mkQueue ApiDelta q None;
  get_orchestrator_request_queue q w := mkQueue OrchestratorRequest q (Some w);
  get_orchestrator_response_queue q w := mkQueue OrchestratorResponse q (Some w);
  get_orchestrator_copy_request_queue q w := mkQueue OrchestratorCopyRequest q (Some w);
  get_orchestrator_copy_response_queue q w := mkQueue OrchestratorCopyResponse q (Some w);
  get_caller_queue q w := mkQueue Caller q (Some w)
|}.

(** ** Python objects *)

(** Object identity of apps and works on the heap. *)
Definition ref := nat.

(** [Backend.__init__]: the three attributes of a backend.  A backend is
    immutable after construction, so it is carried by value. *)
Record Backend := {
  queues : QueuingSystem;
  queue_id : string;
  entrypoint_file : string
}.

(** The callables a work's [run] attribute can hold. *)
Inductive Callable :=
| Method (fn_name : string) (self : ref)
    (* a function or bound method; [fn_name] is its [__name__] *)
| Partial (backend : Backend) (app work : ref) (work_run : Callable)
    (* [partial(backend._dynamic_run_wrapper, app=, work=, work_run=)] *)
| ProxyWorkRun (work_run : Callable) (work_name : string) (work : ref)
    (caller_queue : QueueHandle).

(** The attributes of a [LightningWork] that [Backend] reads or writes;
    [class_name] stands for [work.__class__.__name__]. *)
Record LightningWork := {
  name : string;
  class_name : string;
  run : Callable;
  _backend : option Backend
}.

(** A dictionary attribute of the app: [None] when the attribute does not
    hold a dict (it is Python's [None] before [_prepare_queues] ran). *)
Abbreviation registry := (option (gmap string QueueHandle)).

(** The queue attributes of a [LightningApp]. *)
Record LightningApp := {
  delta_queue : option QueueHandle;
  readiness_queue : option QueueHandle;
  error_queue : option QueueHandle;
  api_publish_state_queue : option QueueHandle;
  api_delta_queue : option QueueHandle;
  request_queues : registry;
  response_queues : registry;
  copy_request_queues : registry;
  copy_response_queues : registry;
  caller_queues : registry;
  work_queues : registry
}.

(** The heap: the live apps and works, by identity. *)
Record World := {
  apps : gmap ref LightningApp;
  works : gmap ref LightningWork
}.

(** Argument and return values of a run method. *)
Inductive Value :=
| VNone
| VInt (n : Z)
| VStr (s : string).

(** ** Exceptions and the state-and-exception monad *)

Inductive Exn :=
| AttributeError (msg : string)
| TypeError (msg : string)
| KeyError (key : string)
| RaisedBy (cls msg : string)
    (* an exception of class [cls] raised by backend or proxy code *)
| InvalidReference (r : ref).
    (* a reference to no live object: not reachable from Python, where a
       reference keeps its object alive *)

Inductive Outcome (A : Type) :=
| Return (a : A)
| Raise (e : Exn).
Arguments Return {A} a.
Arguments Raise {A} e.

(** A computation runs from a heap to an outcome and the heap it leaves;
    the mutations made before an exception is raised persist. *)
Definition M (A : Type) : Type := World -> Outcome A * World.

Definition ret {A} (a : A) : M A := fun s => (Return a, s).

Definition raise {A} (e : Exn) : M A := fun s => (Raise e, s).

Definition bind {A B} (c : M A) (k : A -> M B) : M B :=
  fun s => match c s with
           | (Return a, s') => k a s'
           | (Raise e, s') => (Raise e, s')
           end.

Declare Scope py_scope.
Delimit Scope py_scope with py.
Notation "'let!' x ':=' c 'in' k" := (bind c (fun x => k))
  (at level 10, x name, c at level 100, k at level 200) : py_scope.
Notation "c ';;;' k" := (bind c (fun _ => k))
  (at level 100, k at level 200, right associativity) : py_scope.
Local Open Scope py_scope.

(** *** Heap access *)

Definition read_work (w : ref) : M LightningWork :=
  fun s => match works s !! w with
           | Some W => (Return W, s)
           | None => (Raise (InvalidReference w), s)
           end.

Definition read_app (a : ref) : M LightningApp :=
  fun s => match apps s !! a with
           | Some A => (Return A, s)
           | None => (Raise (InvalidReference a), s)
           end.

Definition write_work (w : ref) (W : LightningWork) : M unit :=
  fun s => (Return tt, {| apps := apps s; works := <[w := W]> (works s) |}).

Definition write_app (a : ref) (A : LightningApp) : M unit :=
  fun s => (Return tt, {| apps := <[a := A]> (apps s); works := works s |}).

(** The work object with [c] as its [run] attribute. *)
Definition with_run (c : Callable) (W : LightningWork) : LightningWork :=
  {| name := name W; class_name := class_name W; run := c; _backend := _backend W |}.

(** [work._backend = b] *)
Definition with_backend (b : Backend) (W : LightningWork) : LightningWork :=
  {| name := name W; class_name := class_name W; run := run W; _backend := Some b |}.

Definition set_backend (w : ref) (b : Backend) : M unit :=
  let! W := read_work w in write_work w (with_backend b W).

(** ** The parts of the framework that [Backend] calls into *)

(** [Backend] is an abstract class: [create_work] is implemented by each
    concrete backend, [ProxyWorkRun] and [unwrap] come from
    [lightning_app.utilities.proxies], and the check that
    [LightningWork.__setattr__] makes on a new [run] belongs to
    [lightning_app.core.work].  None of them is part of these sources, so
    they are taken as parameters. *)
Class Collaborators := {
  (* [Backend.create_work(self, app, work)] of the concrete backend *)
  create_work : Backend -> ref -> ref -> M unit;
  (* [ProxyWorkRun.__call__]: the four fields of the proxy, then the
     positional and keyword arguments of the call *)
  proxy_call : Callable -> string -> ref -> QueueHandle ->
               list Value -> list (string * Value) -> M Value;
  (* [unwrap(fn)] *)
  unwrap : Callable -> Callable;
  (* the [__name__] attribute of a [ProxyWorkRun] instance, if it has one *)
  proxy_dunder_name : option string;
  (* [LightningWork.__setattr__] on [run]: whether the callable is the
     work's own entry method, that is, unwraps to the same method as the
     work's current [run] *)
  own_entry : LightningWork -> Callable -> bool
}.

(** ** Assignment to [work.run] *)

(** [LightningWork] guards its attributes: outside [__init__], [run] can
    only be replaced by a [ProxyWorkRun], by the partial of
    [_dynamic_run_wrapper], or by a callable that is the work's own entry
    method. *)
Definition run_assignable `{Collaborators} (W : LightningWork) (c : Callable) : bool :=
  match c with
  | ProxyWorkRun _ _ _ _ => true
  | Partial _ _ _ _ => true
  | Method _ _ => own_entry W c
  end.

(** [work.run = c]: any other callable is refused with an
    [AttributeError], and the work is left as it was. *)
Definition set_run `{Collaborators} (w : ref) (c : Callable) : M unit :=
  let! W := read_work w in
  if run_assignable W c then write_work w (with_run c W)
  else raise (AttributeError
                "Cannot set attributes that were not defined in __init__: run.").

(** ** Attribute lookups on callables *)

(** [type(c).__name__] as Python prints it in an [AttributeError]. *)
Definition type_name (c : Callable) : string :=
  match c with
  | Method _ _ => "method"
  | Partial _ _ _ _ => "functools.partial"
  | ProxyWorkRun _ _ _ _ => "ProxyWorkRun"
  end.

(** [c.__name__]: functions and bound methods have one; a
    [functools.partial] object has none. *)
Definition dunder_name `{Collaborators} (c : Callable) : option string :=
  match c with
  | Method n _ => Some n
  | Partial _ _ _ _ => None
  | ProxyWorkRun _ _ _ _ => proxy_dunder_name
  end.

Definition no_attribute (c : Callable) (attr : string) : Exn :=
  AttributeError ("'" ++ type_name c ++ "' object has no attribute '" ++ attr ++ "'").

(** ** Dictionary operations on a registry *)

(** [d.update({k: v})]: the attribute lookup of [update] fails on [None]. *)
Definition dict_update (d : registry) (k : string) (v : QueueHandle) : Outcome registry :=
  match d with
  | Some m => Return (Some (<[k := v]> m))
  | None => Raise (AttributeError "'NoneType' object has no attribute 'update'")
  end.

(** [d[k]] *)
Definition dict_getitem (d : registry) (k : string) : Outcome QueueHandle :=
  match d with
  | Some m => match m !! k with
              | Some v => Return v
              | None => Raise (KeyError k)
              end
  | None => Raise (TypeError "'NoneType' object is not subscriptable")
  end.

Definition lift {A} (o : Outcome A) : M A := fun s => (o, s).

(** *** Attribute assignment on the app *)

Definition with_delta_queue (q : QueueHandle) (A : LightningApp) : LightningApp :=
  {| delta_queue := Some q; readiness_queue := readiness_queue A;
     error_queue := error_queue A;
     api_publish_state_queue := api_publish_state_queue A;
     api_delta_queue := api_delta_queue A;
     request_queues := request_queues A; response_queues := response_queues A;
     copy_request_queues := copy_request_queues A;
     copy_response_queues := copy_response_queues A;
     caller_queues := caller_queues A; work_queues := work_queues A |}.

Definition with_readiness_queue (q : QueueHandle) (A : LightningApp) : LightningApp :=
  {| delta_queue := delta_queue A; readiness_queue := Some q;
     error_queue := error_queue A;
     api_publish_state_queue := api_publish_state_queue A;
     api_delta_queue := api_delta_queue A;
     request_queues := request_queues A; response_queues := response_queues A;
     copy_request_queues := copy_request_queues A;
     copy_response_queues := copy_response_queues A;
     caller_queues := caller_queues A; work_queues := work_queues A |}.

Definition with_error_queue (q : QueueHandle) (A : LightningApp) : LightningApp :=
  {| delta_queue := delta_queue A; readiness_queue := readiness_queue A;
     error_queue := Some q;
     api_publish_state_queue := api_publish_state_queue A;
     api_delta_queue := api_delta_queue A;
     request_queues := request_queues A; response_queues := response_queues A;
     copy_request_queues := copy_request_queues A;
     copy_response_queues := copy_response_queues A;
     caller_queues := caller_queues A; work_queues := work_queues A |}.

Definition with_api_publish_state_queue (q : QueueHandle) (A : LightningApp) : LightningApp :=
  {| delta_queue := delta_queue A; readiness_queue := readiness_queue A;
     error_queue := error_queue A;
     api_publish_state_queue := Some q;
     api_delta_queue := api_delta_queue A;
     request_queues := request_queues A; response_queues := response_queues A;
     copy_request_queues := copy_request_queues A;
     copy_response_queues := copy_response_queues A;
     caller_queues := caller_queues A; work_queues := work_queues A |}.

Definition with_api_delta_queue (q : QueueHandle) (A : LightningApp) : LightningApp :=
  {| delta_queue := delta_queue A; readiness_queue := readiness_queue A;
     error_queue := error_queue A;
     api_publish_state_queue := api_publish_state_queue A;
     api_delta_queue := Some q;
     request_queues := request_queues A; response_queues := response_queues A;
     copy_request_queues := copy_request_queues A;
     copy_response_queues := copy_response_queues A;
     caller_queues := caller_queues A; work_queues := work_queues A |}.

Definition with_request_queues (d : registry) (A : LightningApp) : LightningApp :=
  {| delta_queue := delta_queue A; readiness_queue := readiness_queue A;
     error_queue := error_queue A;
     api_publish_state_queue := api_publish_state_queue A;
     api_delta_queue := api_delta_queue A;
     request_queues := d; response_queues := response_queues A;
     copy_request_queues := copy_request_queues A;
     copy_response_queues := copy_response_queues A;
     caller_queues := caller_queues A; work_queues := work_queues A |}.

Definition with_response_queues (d : registry) (A : LightningApp) : LightningApp :=
  {| delta_queue := delta_queue A; readiness_queue := readiness_queue A;
     error_queue := error_queue A;
     api_publish_state_queue := api_publish_state_queue A;
     api_delta_queue := api_delta_queue A;
     request_queues := request_queues A; response_queues := d;
     copy_request_queues := copy_request_queues A;
     copy_response_queues := copy_response_queues A;
     caller_queues := caller_queues A; work_queues := work_queues A |}.

Definition with_copy_request_queues (d : registry) (A : LightningApp) : LightningApp :=
  {| delta_queue := delta_queue A; readiness_queue := readiness_queue A;
     error_queue := error_queue A;
     api_publish_state_queue := api_publish_state_queue A;
     api_delta_queue := api_delta_queue A;
     request_queues := request_queues A; response_queues := response_queues A;
     copy_request_queues := d;
     copy_response_queues := copy_response_queues A;
     caller_queues := caller_queues A; work_queues := work_queues A |}.

Definition with_copy_response_queues (d : registry) (A : LightningApp) : LightningApp :=
  {| delta_queue := delta_queue A; readiness_queue := readiness_queue A;
     error_queue := error_queue A;
     api_publish_state_queue := api_publish_state_queue A;
     api_delta_queue := api_delta_queue A;
     request_queues := request_queues A; response_queues := response_queues A;
     copy_request_queues := copy_request_queues A;
     copy_response_queues := d;
     caller_queues := caller_queues A; work_queues := work_queues A |}.

Definition with_caller_queues (d : registry) (A : LightningApp) : LightningApp :=
  {| delta_queue := delta_queue A; readiness_queue := readiness_queue A;
     error_queue := error_queue A;
     api_publish_state_queue := api_publish_state_queue A;
     api_delta_queue := api_delta_queue A;
     request_queues := request_queues A; response_queues := response_queues A;
     copy_request_queues := copy_request_queues A;
     copy_response_queues := copy_response_queues A;
     caller_queues := d; work_queues := work_queues A |}.

Definition with_work_queues (d : registry) (A : LightningApp) : LightningApp :=
  {| delta_queue := delta_queue A; readiness_queue := readiness_queue A;
     error_queue := error_queue A;
     api_publish_state_queue := api_publish_state_queue A;
     api_delta_queue := api_delta_queue A;
     request_queues := request_queues A; response_queues := response_queues A;
     copy_request_queues := copy_request_queues A;
     copy_response_queues := copy_response_queues A;
     caller_queues := caller_queues A; work_queues := d |}.

(** [app.<attr> = v]: read the app object, store it back with one attribute
    replaced. *)
Definition assign (a : ref) (f : LightningApp -> LightningApp) : M unit :=
  let! A := read_app a in write_app a (f A).

(** [app.<attr>.update({k: v})] on one registry, selected by its getter
    [get] and its setter [set]. *)
Definition update_registry (a : ref) (get : LightningApp -> registry)
    (set : registry -> LightningApp -> LightningApp)
    (k : string) (v : QueueHandle) : M unit :=
  let! A := read_app a in
  let! d := lift (dict_update (get A) k v) in
  write_app a (set d A).

(** ** The concrete methods of [Backend] *)

Section BackendMethods.
Context `{Collaborators}.

(** The message of the error raised for a work without a name. *)
Definition never_attached_message (cls : string) : string :=
  "Failed to create process for " ++ cls ++ "." ++
  " Make sure to set this work as an attribute of a `LightningFlow` before calling the run method.".

(** [Backend._register_queues(self, app, work)].  The work is not written
    between the reads of [work.name], so the name is read once. *)
Definition _register_queues (self : Backend) (app work : ref) : M unit :=
  let! W := read_work work in
  let qid := queue_id self in
  let nm := name W in
  update_registry app request_queues with_request_queues nm
    (get_orchestrator_request_queue (queues self) qid nm) ;;;
  update_registry app response_queues with_response_queues nm
    (get_orchestrator_response_queue (queues self) qid nm) ;;;
  update_registry app copy_request_queues with_copy_request_queues nm
    (get_orchestrator_copy_request_queue (queues self) qid nm) ;;;
  update_registry app copy_response_queues with_copy_response_queues nm
    (get_orchestrator_copy_response_queue (queues self) qid nm) ;;;
  update_registry app caller_queues with_caller_queues nm
    (get_caller_queue (queues self) qid nm).

(** [Backend._prepare_queues(self, app)], with the three repeated
    assignments of the source. *)
Definition _prepare_queues (self : Backend) (app : ref) : M unit :=
  let qid := queue_id self in
  assign app (with_delta_queue (get_delta_queue (queues self) qid)) ;;;
  assign app (with_readiness_queue (get_readiness_queue (queues self) qid)) ;;;
  assign app (with_error_queue (get_error_queue (queues self) qid)) ;;;
  assign app (with_delta_queue (get_delta_queue (queues self) qid)) ;;;
  assign app (with_readiness_queue (get_readiness_queue (queues self) qid)) ;;;
  assign app (with_error_queue (get_error_queue (queues self) qid)) ;;;
  assign app (with_api_publish_state_queue (get_api_state_publish_queue (queues self) qid)) ;;;
  assign app (with_api_delta_queue (get_api_delta_queue (queues self) qid)) ;;;
  assign app (with_request_queues (Some ∅)) ;;;
  assign app (with_response_queues (Some ∅)) ;;;
  assign app (with_copy_request_queues (Some ∅)) ;;;
  assign app (with_copy_response_queues (Some ∅)) ;;;
  assign app (with_caller_queues (Some ∅)) ;;;
  assign app (with_work_queues (Some ∅)).

(** The variant the specification asks for: one assignment per queue
    role. *)
Definition _prepare_queues_single (self : Backend) (app : ref) : M unit :=
  let qid := queue_id self in
  assign app (with_delta_queue (get_delta_queue (queues self) qid)) ;;;
  assign app (with_readiness_queue (get_readiness_queue (queues self) qid)) ;;;
  assign app (with_error_queue (get_error_queue (queues self) qid)) ;;;
  assign app (with_api_publish_state_queue (get_api_state_publish_queue (queues self) qid)) ;;;
  assign app (with_api_delta_queue (get_api_delta_queue (queues self) qid)) ;;;
  assign app (with_request_queues (Some ∅)) ;;;
  assign app (with_response_queues (Some ∅)) ;;;
  assign app (with_copy_request_queues (Some ∅)) ;;;
  assign app (with_copy_response_queues (Some ∅)) ;;;
  assign app (with_caller_queues (Some ∅)) ;;;
  assign app (with_work_queues (Some ∅)).

(** [Backend._dynamic_run_wrapper(self, *args, app, work, work_run, **kwargs)].
    The proxy stored in [work.run] at step 4 is the object called at
    step 5. *)
Definition _dynamic_run_wrapper (self : Backend) (args : list Value) (app work : ref)
    (work_run : Callable) (kwargs : list (string * Value)) : M Value :=
  let! W := read_work work in
  if String.eqb (name W) "" then
    raise (AttributeError (never_attached_message (class_name W)))
  else
    (* 1. Create and register the queues associated the work *)
    _register_queues self app work ;;;
    set_run work work_run ;;;
    (* 2. Create the work *)
    create_work self app work ;;;
    (* 3. Attach backend *)
    set_backend work self ;;;
    (* 4. Create the work proxy to manipulate the work *)
    let! W := read_work work in
    let! A := read_app app in
    let! cq := lift (dict_getitem (caller_queues A) (name W)) in
    set_run work (ProxyWorkRun work_run (name W) work cq) ;;;
    (* 5. Run the work proxy *)
    proxy_call work_run (name W) work cq args kwargs.

(** Steps 4 and 5 of [_dynamic_run_wrapper] on their own, to speak about
    the heap in which they start. *)
Definition install_proxy_and_run (args : list Value) (app work : ref)
    (work_run : Callable) (kwargs : list (string * Value)) : M Value :=
  let! W := read_work work in
  let! A := read_app app in
  let! cq := lift (dict_getitem (caller_queues A) (name W)) in
  set_run work (ProxyWorkRun work_run (name W) work cq) ;;;
  proxy_call work_run (name W) work cq args kwargs.

(** [Backend._wrap_run_method(self, app, work)] *)
Definition _wrap_run_method (self : Backend) (app work : ref) : M unit :=
  let! W := read_work work in
  match dunder_name (run W) with
  | None => raise (no_attribute (run W) "__name__")
  | Some n =>
      if String.eqb n "_dynamic_run_wrapper" then ret tt
      else set_run work (Partial self app work (unwrap (run W)))
  end.

End BackendMethods.

(** ** Derived notions used by the statements *)

(** The app object that [_prepare_queues] leaves behind. *)
Definition prepared (self : Backend) : LightningApp :=
  {| delta_queue := Some (get_delta_queue (queues self) (queue_id self));
     readiness_queue := Some (get_readiness_queue (queues self) (queue_id self));
     error_queue := Some (get_error_queue (queues self) (queue_id self));
     api_publish_state_queue :=
       Some (get_api_state_publish_queue (queues self) (queue_id self));
     api_delta_queue := Some (get_api_delta_queue (queues self) (queue_id self));
     request_queues := Some ∅; response_queues := Some ∅;
     copy_request_queues := Some ∅; copy_response_queues := Some ∅;
     caller_queues := Some ∅; work_queues := Some ∅ |}.

(** The app object that a successful [_register_queues] for the name [nm]
    leaves behind: [nm] is bound in each of the five registries to the
    handle the backend's queuing system returns for it. *)
Definition register_in (self : Backend) (nm : string) (A : LightningApp) : LightningApp :=
  {| delta_queue := delta_queue A; readiness_queue := readiness_queue A;
     error_queue := error_queue A;
     api_publish_state_queue := api_publish_state_queue A;
     api_delta_queue := api_delta_queue A;
     request_queues :=
       insert nm (get_orchestrator_request_queue (queues self) (queue_id self) nm)
         <$> request_queues A;
     response_queues :=
       insert nm (get_orchestrator_response_queue (queues self) (queue_id self) nm)
         <$> response_queues A;
     copy_request_queues :=
       insert nm (get_orchestrator_copy_request_queue (queues self) (queue_id self) nm)
         <$> copy_request_queues A;
     copy_response_queues :=
       insert nm (get_orchestrator_copy_response_queue (queues self) (queue_id self) nm)
         <$> copy_response_queues A;
     caller_queues :=
       insert nm (get_caller_queue (queues self) (queue_id self) nm)
         <$> caller_queues A;
     work_queues := work_queues A |}.

(** [d.get(k)] for a registry: the handle bound to [k], if any. *)
Definition handle_of (d : registry) (k : string) : option QueueHandle :=
  d ≫= (λ m, m !! k).

(** The handles registered for a work name: request, response,
    copy-request, copy-response and caller queue. *)
Definition queue_handles (A : LightningApp) (nm : string) : list (option QueueHandle) :=
  [ handle_of (request_queues A) nm; handle_of (response_queues A) nm;
    handle_of (copy_request_queues A) nm; handle_of (copy_response_queues A) nm;
    handle_of (caller_queues A) nm ].

(** The five registries of an app are dictionaries. *)
Definition registries_ready (A : LightningApp) : Prop :=
  is_Some (request_queues A) /\ is_Some (response_queues A) /\
  is_Some (copy_request_queues A) /\ is_Some (copy_response_queues A) /\
  is_Some (caller_queues A).

(** The attributes of an app that are not per-work registries. *)
Definition app_queues (A : LightningApp) :=
  (delta_queue A, readiness_queue A, error_queue A,
   api_publish_state_queue A, api_delta_queue A).

(** What a computation working for [work] on [app] may change between the
    heaps [s] and [s']: the registries of [app], and the [run] and
    [_backend] attributes of [work]; nothing else. *)
Record frame (app work : ref) (s s' : World) : Prop := {
  frame_other_works : forall w', w' <> work -> works s' !! w' = works s !! w';
  frame_other_apps : forall a', a' <> app -> apps s' !! a' = apps s !! a';
  frame_app_queues : app_queues <$> apps s' !! app = app_queues <$> apps s !! app;
  frame_work_identity :
    (λ W, (name W, class_name W)) <$> works s' !! work =
    (λ W, (name W, class_name W)) <$> works s !! work
}.

(** A computation keeps the relation [R] between the heap it starts in and
    the heap it leaves, whatever its outcome. *)
Definition preserves {A} (R : World -> World -> Prop) (c : M A) : Prop :=
  forall s, R s (snd (c s)).

(** ** A concrete setting for examples *)

Module Sample.

(** [unwrap] as the proxies module has it: a partial gives its [work_run]
    keyword, a proxy gives its [work_run] field. *)
Definition sample_unwrap (c : Callable) : Callable :=
  let c1 := match c with Partial _ _ _ wr => wr | _ => c end in
  match c1 with ProxyWorkRun wr _ _ _ => wr | _ => c1 end.

(** Two callables are the same method: same function name, bound to the
    same object. *)
Definition same_method (c d : Callable) : bool :=
  match c, d with
  | Method n o, Method n' o' => String.eqb n n' && Nat.eqb o o'
  | _, _ => false
  end.

(** A backend whose [create_work] records the work in [app.work_queues], and
    a proxy whose call returns the name it was built with. *)
#[export] Instance local : Collaborators := {|
  create_work self app work :=
    (let! W := read_work work in
     update_registry app work_queues with_work_queues (name W)
       (mkQueue OrchestratorRequest (queue_id self) (Some (name W))))%py;
  proxy_call work_run nm work cq args kwargs := ret (VStr nm);
  unwrap := sample_unwrap;
  proxy_dunder_name := None;
  own_entry W c := same_method (sample_unwrap c) (sample_unwrap (run W))
|}.

Definition backend_a : Backend :=
  {| queues := fabric; queue_id := "a"; entrypoint_file := "app.py" |}.

Definition backend_b : Backend :=
  {| queues := fabric; queue_id := "b"; entrypoint_file := "app.py" |}.

Definition fresh_app : LightningApp :=
  {| delta_queue := None; readiness_queue := None; error_queue := None;
     api_publish_state_queue := None; api_delta_queue := None;
     request_queues := None; response_queues := None;
     copy_request_queues := None; copy_response_queues := None;
     caller_queues := None; work_queues := None |}.

Definition new_work (nm : string) (self : ref) : LightningWork :=
  {| name := nm; class_name := "Trainer"; run := Method "run" self; _backend := None |}.

(** One app at reference 0; a work named "trainer" at 1, a work named
    "worker-1" at 2 and a work that was never attached at 3. *)
Definition world0 : World :=
  {| apps := {[ 0 := fresh_app ]};
     works := {[ 1 := new_work "trainer" 1; 2 := new_work "worker-1" 2;
                 3 := new_work "" 3 ]} |}.

(** [world0] after [_prepare_queues]. *)
Definition world1 : World := snd (_prepare_queues backend_a 0 world0).

(** [world1] after the run of "trainer" was intercepted by [backend_a]
    with the arguments [(5,)] and [batch=5]. *)
Definition world2 : World :=
  snd (_dynamic_run_wrapper backend_a [VInt 5] 0 1 (Method "run" 1)
         [("batch", VInt 5)] world1).

(** [world2] after a second interception for "trainer", by [backend_b]. *)
Definition world3 : World :=
  snd (_dynamic_run_wrapper backend_b [VInt 5] 0 1 (Method "run" 1)
         [("batch", VInt 5)] world2).

(** [world1] after a first [_wrap_run_method] for "trainer". *)
Definition world_wrapped : World := snd (_wrap_run_method backend_a 0 1 world1).

(** The app object at reference 0 of a heap. *)
Definition the_app (s : World) : LightningApp := default fresh_app (apps s !! 0).

(** The work object at a reference of a heap. *)
Definition the_work (s : World) (w : ref) : LightningWork :=
  default (new_work "" w) (works s !! w).

End Sample.

(** ** Further settings for examples *)

Module Scenarios.

(** A backend whose [create_work] empties [app.caller_queues], so that the
    caller queue registered at step 1 is gone at step 4. *)
Definition forgetful : Collaborators := {|
  create_work self app work := assign app (with_caller_queues (Some ∅));
  proxy_call work_run nm work cq args kwargs := ret (VStr nm);
  unwrap := Sample.sample_unwrap;
  proxy_dunder_name := None;
  own_entry W c :=
    Sample.same_method (Sample.sample_unwrap c) (Sample.sample_unwrap (run W))
|}.

(** An app whose request registry is a dictionary holding a handle for
    "other", while its response registry was never set. *)
Definition half_ready_app : LightningApp :=
  {| delta_queue := None; readiness_queue := None; error_queue := None;
     api_publish_state_queue := None; api_delta_queue := None;
     request_queues := Some {[ "other" := mkQueue OrchestratorRequest "a" (Some "other") ]};
     response_queues := None;
     copy_request_queues := Some ∅; copy_response_queues := Some ∅;
     caller_queues := Some ∅; work_queues := Some ∅ |}.

Definition half_ready_world : World :=
  {| apps := {[ 0 := half_ready_app ]};
     works := {[ 1 := Sample.new_work "trainer" 1 ]} |}.

End Scenarios.

(** ** The profiler example: [examples/pl_basics/profiler_example.py] *)

Module ProfilerExample.

(** [int(b)] printed by an f-string. *)
Definition int_of_bool_str (b : bool) : string := if b then "1" else "0".

(** [DEFAULT_CMD_LINE]; [cuda] is the value of
    [torch.cuda.is_available()] when the module is loaded. *)
Definition DEFAULT_CMD_LINE (cuda : bool) : list string :=
  [ "fit";
    "--trainer.max_epochs=1";
    "--trainer.limit_train_batches=15";
    "--trainer.limit_val_batches=15";
    "--trainer.profiler=pytorch";
    "--trainer.accelerator=gpu";
    "--trainer.devices=" ++ int_of_bool_str cuda ].

(** [cli_main()]: [argv] is [sys.argv], which the function extends in
    place; [LightningCLI] stands for the construction of the command-line
    interface, which reads [sys.argv] as it is at that point.  The result is
    the final [sys.argv] and what the construction produced. *)
Definition cli_main {R} (LightningCLI : list string -> R) (cuda : bool)
    (argv : list string) : list string * R :=
  let argv' :=
    if Nat.eqb (length argv) 1 then (argv ++ DEFAULT_CMD_LINE cuda)%list else argv in
  (argv', LightningCLI argv').

End ProfilerExample.

(** ** Reasoning about computations *)

Section MonadLemmas.
Context `{Collaborators}.

Lemma bind_return {A B} (c : M A) (k : A -> M B) s a s' :
  c s = (Return a, s') -> bind c k s = k a s'.
Proof. intros E. unfold bind. now rewrite E. Qed.

Lemma bind_raise {A B} (c : M A) (k : A -> M B) s e s' :
  c s = (Raise e, s') -> bind c k s = (Raise e, s').
Proof. intros E. unfold bind. now rewrite E. Qed.

Lemma read_work_live w s W :
  works s !! w = Some W -> read_work w s = (Return W, s).
Proof. intros E. unfold read_work. now rewrite E. Qed.

Lemma read_app_live a s A :
  apps s !! a = Some A -> read_app a s = (Return A, s).
Proof. intros E. unfold read_app. now rewrite E. Qed.

Lemma assign_live a f s A :
  apps s !! a = Some A ->
  assign a f s = (Return tt, {| apps := <[a := f A]> (apps s); works := works s |}).
Proof. intros E. unfold assign. now rewrite (bind_return _ _ _ _ _ (read_app_live _ _ _ E)). Qed.

Lemma assign_dangling a f s :
  apps s !! a = None -> assign a f s = (Raise (InvalidReference a), s).
Proof. intros E. unfold assign, bind, read_app. now rewrite E. Qed.

Lemma set_run_live w c s W :
  works s !! w = Some W -> run_assignable W c = true ->
  set_run w c s = (Return tt, {| apps := apps s; works := <[w := with_run c W]> (works s) |}).
Proof.
  intros E G. unfold set_run.
  rewrite (bind_return _ _ _ _ _ (read_work_live _ _ _ E)). now rewrite G.
Qed.

Lemma set_run_refused w c s W :
  works s !! w = Some W -> run_assignable W c = false ->
  set_run w c s =
  (Raise (AttributeError
            "Cannot set attributes that were not defined in __init__: run."), s).
Proof.
  intros E G. unfold set_run.
  rewrite (bind_return _ _ _ _ _ (read_work_live _ _ _ E)). now rewrite G.
Qed.

Lemma set_backend_live w b s W :
  works s !! w = Some W ->
  set_backend w b s =
  (Return tt, {| apps := apps s; works := <[w := with_backend b W]> (works s) |}).
Proof. intros E. unfold set_backend. now rewrite (bind_return _ _ _ _ _ (read_work_live _ _ _ E)). Qed.

Lemma update_registry_live a get set k v s A m :
  apps s !! a = Some A -> get A = Some m ->
  update_registry a get set k v s =
  (Return tt, {| apps := <[a := set (Some (<[k := v]> m)) A]> (apps s); works := works s |}).
Proof.
  intros E G. unfold update_registry.
  rewrite (bind_return _ _ _ _ _ (read_app_live _ _ _ E)).
  unfold bind, lift, dict_update. now rewrite G.
Qed.

End MonadLemmas.

(** ** [_prepare_queues] *)

Section PrepareQueues.

Ltac step_assign :=
  match goal with
  | |- context [bind (assign ?a ?f) ?k ?s] =>
      erewrite (bind_return (assign a f) k s);
      [ | apply assign_live; simpl; first [ eassumption | apply lookup_insert_eq ] ];
      simpl; rewrite ?insert_insert_eq
  end.

Lemma prepare_queues_live self app s A :
  apps s !! app = Some A ->
  _prepare_queues self app s =
  (Return tt, {| apps := <[app := prepared self]> (apps s); works := works s |}).
Proof.
  intros E. unfold _prepare_queues. cbv zeta.
  repeat step_assign.
  erewrite assign_live by (simpl; apply lookup_insert_eq).
  simpl. now rewrite insert_insert_eq.
Qed.

Lemma prepare_queues_single_live self app s A :
  apps s !! app = Some A ->
  _prepare_queues_single self app s =
  (Return tt, {| apps := <[app := prepared self]> (apps s); works := works s |}).
Proof.
  intros E. unfold _prepare_queues_single. cbv zeta.
  repeat step_assign.
  erewrite assign_live by (simpl; apply lookup_insert_eq).
  simpl. now rewrite insert_insert_eq.
Qed.

Lemma prepare_queues_dangling self app s :
  apps s !! app = None ->
  _prepare_queues self app s = (Raise (InvalidReference app), s) /\
  _prepare_queues_single self app s = (Raise (InvalidReference app), s).
Proof.
  intros E. unfold _prepare_queues, _prepare_queues_single. cbv zeta.
  split; now rewrite (bind_raise _ _ _ _ _ (assign_dangling _ _ _ E)).
Qed.

End PrepareQueues.

(** C4. The repeated delta, readiness and error assignments of
    [_prepare_queues] are redundant: for every backend (hence every queuing
    system), app reference and heap, [_prepare_queues] and the variant with
    one assignment per queue role produce the same outcome and the same
    final heap, so every attribute of the app and everything else agree. *)
Theorem prepare_queues_duplicates_redundant (self : Backend) (app : ref) (s : World) :
  _prepare_queues self app s = _prepare_queues_single self app s.
Proof.
  destruct (apps s !! app) as [A|] eqn:E.
  - rewrite (prepare_queues_live _ _ _ _ E).
    now rewrite (prepare_queues_single_live _ _ _ _ E).
  - destruct (prepare_queues_dangling self app s E) as [-> ->]. reflexivity.
Qed.

(** C9. [_prepare_queues] resets every per-work registry of the app
    (request, response, copy-request, copy-response, caller and work
    queues) to an empty dictionary whatever the app held before: it always
    succeeds on a live app, and no handle stays registered for any name. *)
Theorem prepare_queues_resets_registries (self : Backend) (app : ref) (s : World)
    (A : LightningApp) :
  apps s !! app = Some A ->
  exists A',
    _prepare_queues self app s =
      (Return tt, {| apps := <[app := A']> (apps s); works := works s |}) /\
    request_queues A' = Some ∅ /\ response_queues A' = Some ∅ /\
    copy_request_queues A' = Some ∅ /\ copy_response_queues A' = Some ∅ /\
    caller_queues A' = Some ∅ /\ work_queues A' = Some ∅ /\
    forall nm, queue_handles A' nm = [None; None; None; None; None].
Proof.
  intros E. exists (prepared self). split.
  - exact (prepare_queues_live _ _ _ _ E).
  - repeat split; reflexivity.
Qed.

(** ** [_register_queues] *)

Section RegisterQueues.

Ltac step_update :=
  match goal with
  | |- context [bind (update_registry ?a ?g ?st ?k ?v) ?c ?s] =>
      erewrite (bind_return (update_registry a g st k v) c s);
      [ | eapply update_registry_live;
          [ simpl; first [ eassumption | apply lookup_insert_eq ]
          | simpl; first [ eassumption | reflexivity ] ] ];
      simpl; rewrite ?insert_insert_eq
  end.

Lemma register_queues_live self app work s W A :
  works s !! work = Some W -> apps s !! app = Some A -> registries_ready A ->
  _register_queues self app work s =
  (Return tt, {| apps := <[app := register_in self (name W) A]> (apps s);
                 works := works s |}).
Proof.
  intros EW EA ([m1 R1] & [m2 R2] & [m3 R3] & [m4 R4] & [m5 R5]).
  unfold _register_queues.
  rewrite (bind_return _ _ _ _ _ (read_work_live _ _ _ EW)). cbv zeta.
  repeat step_update.
  erewrite update_registry_live;
    [ | simpl; apply lookup_insert_eq | simpl; eassumption ].
  simpl. rewrite insert_insert_eq.
  unfold register_in. rewrite R1, R2, R3, R4, R5. reflexivity.
Qed.

Lemma queue_handles_register_in self nm A :
  registries_ready A ->
  queue_handles (register_in self nm A) nm =
  [ Some (get_orchestrator_request_queue (queues self) (queue_id self) nm);
    Some (get_orchestrator_response_queue (queues self) (queue_id self) nm);
    Some (get_orchestrator_copy_request_queue (queues self) (queue_id self) nm);
    Some (get_orchestrator_copy_response_queue (queues self) (queue_id self) nm);
    Some (get_caller_queue (queues self) (queue_id self) nm) ].
Proof.
  intros ([m1 R1] & [m2 R2] & [m3 R3] & [m4 R4] & [m5 R5]).
  unfold queue_handles, register_in, handle_of. simpl.
  rewrite R1, R2, R3, R4, R5. simpl. now rewrite !lookup_insert_eq.
Qed.

Lemma queue_handles_register_in_ne self nm nm' A :
  nm' <> nm -> queue_handles (register_in self nm A) nm' = queue_handles A nm'.
Proof.
  intros N. unfold queue_handles, register_in, handle_of. simpl.
  destruct (request_queues A), (response_queues A), (copy_request_queues A),
    (copy_response_queues A), (caller_queues A); simpl;
    rewrite ?lookup_insert_ne by (intros ->; now apply N); reflexivity.
Qed.

End RegisterQueues.

(** C2 (amended). The registration step is unconditional.  On a live work
    and a live app whose five registries are dictionaries,
    [_register_queues] succeeds and binds the work's name, in each of the
    request, response, copy-request, copy-response and caller registries, to
    the handle the backend's queuing system returns for the backend's queue
    id and that name, whatever was bound there before; the handles of every
    other name, the other attributes of the app, the other apps and all
    works are unchanged. *)
Theorem register_queues_rebinds (self : Backend) (app work : ref) (s : World)
    (W : LightningWork) (A : LightningApp) :
  works s !! work = Some W -> apps s !! app = Some A -> registries_ready A ->
  exists A',
    _register_queues self app work s =
      (Return tt, {| apps := <[app := A']> (apps s); works := works s |}) /\
    queue_handles A' (name W) =
      [ Some (get_orchestrator_request_queue (queues self) (queue_id self) (name W));
        Some (get_orchestrator_response_queue (queues self) (queue_id self) (name W));
        Some (get_orchestrator_copy_request_queue (queues self) (queue_id self) (name W));
        Some (get_orchestrator_copy_response_queue (queues self) (queue_id self) (name W));
        Some (get_caller_queue (queues self) (queue_id self) (name W)) ] /\
    (forall nm, nm <> name W -> queue_handles A' nm = queue_handles A nm) /\
    app_queues A' = app_queues A /\ work_queues A' = work_queues A.
Proof.
  intros EW EA R. exists (register_in self (name W) A). split; [|split; [|split]].
  - now apply register_queues_live.
  - now apply queue_handles_register_in.
  - intros nm N. now apply queue_handles_register_in_ne.
  - split; reflexivity.
Qed.

(** ** The configuration-error branch of [_dynamic_run_wrapper] *)

Lemma dynamic_run_wrapper_unnamed `{Collaborators} self args app work work_run kwargs s W :
  works s !! work = Some W -> name W = "" ->
  _dynamic_run_wrapper self args app work work_run kwargs s =
  (Raise (AttributeError (never_attached_message (class_name W))), s).
Proof.
  intros EW EN. unfold _dynamic_run_wrapper.
  rewrite (bind_return _ _ _ _ _ (read_work_live _ _ _ EW)).
  rewrite EN. reflexivity.
Qed.

(** C1. For a work whose name is empty, [_dynamic_run_wrapper] raises, for
    all positional and keyword arguments, an error whose message names the
    work's class and the requirement that the work be set as an attribute
    of a [LightningFlow] before its run method is called.  (The Python
    class of the error is [AttributeError].) *)
Theorem dynamic_run_wrapper_unnamed_raises `{Collaborators}
    (self : Backend) (args : list Value) (app work : ref) (work_run : Callable)
    (kwargs : list (string * Value)) (s : World) (W : LightningWork) :
  works s !! work = Some W -> name W = "" ->
  fst (_dynamic_run_wrapper self args app work work_run kwargs s) =
  Raise (AttributeError
    ("Failed to create process for " ++ class_name W ++
     ". Make sure to set this work as an attribute of a `LightningFlow` before calling the run method.")).
Proof.
  intros EW EN.
  now rewrite (dynamic_run_wrapper_unnamed _ _ _ _ _ _ _ _ EW EN).
Qed.

(** C7. The configuration-error branch is atomic.  For a work whose name is
    empty, [_dynamic_run_wrapper] leaves the whole heap as it found it: no
    registry of any app is touched, and [work.run] and [work._backend] (and
    every other work) are unchanged.  The outcome is the same for every
    implementation of the abstract [create_work], of the proxy and of
    [unwrap]: none of them is invoked. *)
Theorem dynamic_run_wrapper_unnamed_atomic `{C : Collaborators}
    (self : Backend) (args : list Value) (app work : ref) (work_run : Callable)
    (kwargs : list (string * Value)) (s : World) (W : LightningWork) :
  works s !! work = Some W -> name W = "" ->
  let r := _dynamic_run_wrapper self args app work work_run kwargs s in
  (exists e, fst r = Raise e) /\
  snd r = s /\
  apps (snd r) = apps s /\
  works (snd r) !! work = Some W /\
  forall C' : Collaborators,
    @_dynamic_run_wrapper C' self args app work work_run kwargs s = r.
Proof.
  intros EW EN r. subst r.
  rewrite (dynamic_run_wrapper_unnamed _ _ _ _ _ _ _ _ EW EN). simpl.
  repeat split; eauto.
  intros C'. now rewrite (dynamic_run_wrapper_unnamed _ _ _ _ _ _ _ _ EW EN).
Qed.

(** ** [_wrap_run_method] *)

Lemma wrap_run_method_no_name `{Collaborators} self app work s W :
  works s !! work = Some W -> dunder_name (run W) = None ->
  _wrap_run_method self app work s = (Raise (no_attribute (run W) "__name__"), s).
Proof.
  intros EW EN. unfold _wrap_run_method.
  rewrite (bind_return _ _ _ _ _ (read_work_live _ _ _ EW)).
  now rewrite EN.
Qed.

Lemma wrap_run_method_plain `{Collaborators} self app work s W n o :
  works s !! work = Some W -> run W = Method n o -> n <> "_dynamic_run_wrapper" ->
  _wrap_run_method self app work s =
  (Return tt,
   {| apps := apps s;
      works := <[work := with_run (Partial self app work (unwrap (run W))) W]> (works s) |}).
Proof.
  intros EW ER N. unfold _wrap_run_method.
  rewrite (bind_return _ _ _ _ _ (read_work_live _ _ _ EW)).
  rewrite ER. simpl. rewrite <- ER.
  destruct (String.eqb_spec n "_dynamic_run_wrapper") as [->|_]; [now destruct N|].
  now apply set_run_live.
Qed.

(** C8. When [work.run] is a callable without a [__name__] attribute,
    [_wrap_run_method] raises [AttributeError] on the marker check and
    changes nothing.  In particular, after a first [_wrap_run_method] has
    replaced a plain run method by the [functools.partial] of
    [_dynamic_run_wrapper], any further [_wrap_run_method] on that work
    raises instead of returning or wrapping again. *)
Theorem wrap_run_method_raises_without_name `{Collaborators}
    (self self' : Backend) (app app' work : ref) (s : World) (W : LightningWork) :
  works s !! work = Some W ->
  (dunder_name (run W) = None ->
   _wrap_run_method self app work s =
   (Raise (AttributeError
      ("'" ++ type_name (run W) ++ "' object has no attribute '__name__'")), s)) /\
  (forall n o, run W = Method n o -> n <> "_dynamic_run_wrapper" ->
   exists s1,
     _wrap_run_method self app work s = (Return tt, s1) /\
     run <$> works s1 !! work = Some (Partial self app work (unwrap (run W))) /\
     _wrap_run_method self' app' work s1 =
     (Raise (AttributeError
        "'functools.partial' object has no attribute '__name__'"), s1)).
Proof.
  intros EW. split.
  - intros EN. now apply wrap_run_method_no_name.
  - intros n o ER N. eexists. split; [|split].
    + exact (wrap_run_method_plain self app work s W n o EW ER N).
    + simpl. now rewrite lookup_insert_eq.
    + apply (wrap_run_method_no_name self' app' work _
               (with_run (Partial self app work (unwrap (run W))) W));
        [ simpl; apply lookup_insert_eq | reflexivity ].
Qed.

(** ** Frame rules *)

Section FrameRules.
Context `{Collaborators}.
Variables app work : ref.

Lemma frame_refl s : frame app work s s.
Proof. split; reflexivity. Qed.

Lemma frame_trans s1 s2 s3 :
  frame app work s1 s2 -> frame app work s2 s3 -> frame app work s1 s3.
Proof.
  intros [O1 P1 Q1 I1] [O2 P2 Q2 I2]. split.
  - intros w' N. now rewrite (O2 w' N), (O1 w' N).
  - intros a' N. now rewrite (P2 a' N), (P1 a' N).
  - now rewrite Q2.
  - now rewrite I2.
Qed.

Lemma preserves_bind {A B} (c : M A) (k : A -> M B) :
  preserves (frame app work) c -> (forall a, preserves (frame app work) (k a)) ->
  preserves (frame app work) (bind c k).
Proof.
  intros Hc Hk s. unfold bind. specialize (Hc s).
  destruct (c s) as [[a|e] s']; simpl in *.
  - eapply frame_trans; [exact Hc | apply Hk].
  - exact Hc.
Qed.

Lemma preserves_ret {A} (a : A) : preserves (frame app work) (ret a).
Proof. intros s. apply frame_refl. Qed.

Lemma preserves_raise {A} e : preserves (frame app work) (@raise A e).
Proof. intros s. apply frame_refl. Qed.

Lemma preserves_lift {A} (o : Outcome A) : preserves (frame app work) (lift o).
Proof. intros s. apply frame_refl. Qed.

Lemma preserves_read_work w : preserves (frame app work) (read_work w).
Proof. intros s. unfold read_work. destruct (works s !! w); apply frame_refl. Qed.

Lemma preserves_read_app a : preserves (frame app work) (read_app a).
Proof. intros s. unfold read_app. destruct (apps s !! a); apply frame_refl. Qed.

(** Storing the work back with the same name and class stays in the
    frame. *)
Lemma frame_write_work s W W' :
  works s !! work = Some W -> name W' = name W -> class_name W' = class_name W ->
  frame app work s {| apps := apps s; works := <[work := W']> (works s) |}.
Proof.
  intros EW EN EC. split; simpl.
  - intros w' N. now apply lookup_insert_ne.
  - reflexivity.
  - reflexivity.
  - rewrite lookup_insert_eq, EW. simpl. now rewrite EN, EC.
Qed.

(** Storing the app back with the same non-registry attributes stays in the
    frame. *)
Lemma frame_write_app s A A' :
  apps s !! app = Some A -> app_queues A' = app_queues A ->
  frame app work s {| apps := <[app := A']> (apps s); works := works s |}.
Proof.
  intros EA EQ. split; simpl.
  - reflexivity.
  - intros a' N. now apply lookup_insert_ne.
  - rewrite lookup_insert_eq, EA. simpl. now rewrite EQ.
  - reflexivity.
Qed.

Lemma preserves_set_run c : preserves (frame app work) (set_run work c).
Proof.
  intros s. destruct (works s !! work) as [W|] eqn:EW.
  - destruct (run_assignable W c) eqn:G.
    + rewrite (set_run_live _ _ _ _ EW G). simpl. now apply (frame_write_work s W).
    + rewrite (set_run_refused _ _ _ _ EW G). apply frame_refl.
  - unfold set_run, bind, read_work. rewrite EW. apply frame_refl.
Qed.

Lemma preserves_set_backend b : preserves (frame app work) (set_backend work b).
Proof.
  intros s. destruct (works s !! work) as [W|] eqn:EW.
  - rewrite (set_backend_live _ _ _ _ EW). simpl. now apply (frame_write_work s W).
  - unfold set_backend, bind, read_work. rewrite EW. apply frame_refl.
Qed.

Lemma preserves_update_registry get set k v :
  (forall d A, app_queues (set d A) = app_queues A) ->
  preserves (frame app work) (update_registry app get set k v).
Proof.
  intros Hset s. destruct (apps s !! app) as [A|] eqn:EA.
  - destruct (get A) as [m|] eqn:G.
    + rewrite (update_registry_live _ _ _ _ _ _ _ _ EA G). simpl.
      apply (frame_write_app s A); [exact EA | apply Hset].
    + unfold update_registry.
      rewrite (bind_return _ _ _ _ _ (read_app_live _ _ _ EA)).
      unfold bind, lift, dict_update. rewrite G. apply frame_refl.
  - unfold update_registry, bind, read_app. rewrite EA. apply frame_refl.
Qed.

Lemma preserves_register_queues self :
  preserves (frame app work) (_register_queues self app work).
Proof.
  unfold _register_queues.
  apply preserves_bind; [apply preserves_read_work | intros W; cbv zeta].
  repeat (apply preserves_bind; [ | intros _ ]);
    apply preserves_update_registry; reflexivity.
Qed.

End FrameRules.

(** C5. Frame property of the interception path.  Provided the backend's
    [create_work] and the proxy call each stay within the frame of the work
    they serve (the contract the specification gives them: they may change
    the app's registries and that work's [run] and [_backend]), a whole run
    of [_dynamic_run_wrapper] for [work] on [app], whatever its outcome,
    changes nothing but the registries of [app] and the [run] and [_backend]
    attributes of [work]: every other work, every other app, the remaining
    queue attributes of [app] and the name and class of [work] are as
    before. *)
Theorem dynamic_run_wrapper_frame `{Collaborators}
    (self : Backend) (args : list Value) (app work : ref) (work_run : Callable)
    (kwargs : list (string * Value)) :
  (forall s, frame app work s (snd (create_work self app work s))) ->
  (forall wr nm cq s,
     frame app work s (snd (proxy_call wr nm work cq args kwargs s))) ->
  forall s,
    let s' := snd (_dynamic_run_wrapper self args app work work_run kwargs s) in
    frame app work s s' /\
    forall w', w' <> work -> works s' !! w' = works s !! w'.
Proof.
  intros Hcreate Hproxy.
  assert (P : preserves (frame app work)
                (_dynamic_run_wrapper self args app work work_run kwargs)).
  { unfold _dynamic_run_wrapper.
    apply preserves_bind; [apply preserves_read_work | intros W].
    destruct (String.eqb (name W) ""); [apply preserves_raise|].
    apply preserves_bind; [apply preserves_register_queues | intros _].
    apply preserves_bind; [apply preserves_set_run | intros _].
    apply preserves_bind; [exact Hcreate | intros _].
    apply preserves_bind; [apply preserves_set_backend | intros _].
    apply preserves_bind; [apply preserves_read_work | intros W'].
    apply preserves_bind; [apply preserves_read_app | intros A].
    apply preserves_bind; [apply preserves_lift | intros cq].
    apply preserves_bind; [apply preserves_set_run | intros _].
    intros s. apply Hproxy. }
  intros s s'. split; [apply P | apply (P s)].
Qed.

(** ** The success path of [_dynamic_run_wrapper] *)

Section SuccessPath.
Context `{Collaborators}.

Lemma bind_return_inv {A B} (c : M A) (k : A -> M B) s b s' :
  bind c k s = (Return b, s') ->
  exists a s1, c s = (Return a, s1) /\ k a s1 = (Return b, s').
Proof.
  unfold bind. destruct (c s) as [[a|e] s1]; [eauto | discriminate].
Qed.

Lemma read_work_inv w s W s1 :
  read_work w s = (Return W, s1) -> s1 = s /\ works s !! w = Some W.
Proof.
  unfold read_work. destruct (works s !! w); [|discriminate].
  intros [= -> ->]. now split.
Qed.

Lemma read_app_inv a s A s1 :
  read_app a s = (Return A, s1) -> s1 = s /\ apps s !! a = Some A.
Proof.
  unfold read_app. destruct (apps s !! a); [|discriminate].
  intros [= -> ->]. now split.
Qed.

Lemma set_run_inv w c s u s1 :
  set_run w c s = (Return u, s1) ->
  exists W, works s !! w = Some W /\
    s1 = {| apps := apps s; works := <[w := with_run c W]> (works s) |}.
Proof.
  unfold set_run. intros E.
  apply bind_return_inv in E as (W & s0 & ER & EW).
  apply read_work_inv in ER as [-> ER]. exists W. split; [exact ER|].
  destruct (run_assignable W c); [|discriminate EW].
  unfold write_work in EW. now injection EW as _ <-.
Qed.

Lemma set_backend_inv w b s u s1 :
  set_backend w b s = (Return u, s1) ->
  exists W, works s !! w = Some W /\
    s1 = {| apps := apps s; works := <[w := with_backend b W]> (works s) |}.
Proof.
  unfold set_backend. intros E.
  apply bind_return_inv in E as (W & s0 & ER & EW).
  apply read_work_inv in ER as [-> ER]. exists W. split; [exact ER|].
  unfold write_work in EW. now injection EW as _ <-.
Qed.

Lemma dict_getitem_inv d k s cq s1 :
  lift (dict_getitem d k) s = (Return cq, s1) -> s1 = s /\ handle_of d k = Some cq.
Proof.
  unfold lift, dict_getitem, handle_of. destruct d as [m|]; simpl; [|discriminate].
  destruct (m !! k); [|discriminate]. intros [= -> ->]. now split.
Qed.

(** For a named work the wrapper is the sequence of its five steps. *)
Lemma dynamic_run_wrapper_named self args app work work_run kwargs s W :
  works s !! work = Some W -> name W <> "" ->
  _dynamic_run_wrapper self args app work work_run kwargs s =
  (_register_queues self app work ;;;
   set_run work work_run ;;;
   create_work self app work ;;;
   set_backend work self ;;;
   install_proxy_and_run args app work work_run kwargs) s.
Proof.
  intros EW N. unfold _dynamic_run_wrapper.
  rewrite (bind_return _ _ _ _ _ (read_work_live _ _ _ EW)).
  destruct (String.eqb_spec (name W) "") as [E|_]; [now destruct N|].
  reflexivity.
Qed.

Lemma dynamic_run_wrapper_return_named self args app work work_run kwargs s v s' :
  _dynamic_run_wrapper self args app work work_run kwargs s = (Return v, s') ->
  exists W, works s !! work = Some W /\ name W <> "".
Proof.
  unfold _dynamic_run_wrapper. intros E.
  apply bind_return_inv in E as (W & s0 & ER & E).
  apply read_work_inv in ER as [-> ER]. exists W. split; [exact ER|].
  intros EN. rewrite EN in E. discriminate.
Qed.

Lemma install_proxy_and_run_inv args app work work_run kwargs s v s' :
  install_proxy_and_run args app work work_run kwargs s = (Return v, s') ->
  exists W A cq,
    works s !! work = Some W /\ apps s !! app = Some A /\
    handle_of (caller_queues A) (name W) = Some cq /\
    proxy_call work_run (name W) work cq args kwargs
      {| apps := apps s;
         works := <[work := with_run (ProxyWorkRun work_run (name W) work cq) W]> (works s) |}
    = (Return v, s').
Proof.
  unfold install_proxy_and_run. intros E.
  apply bind_return_inv in E as (W & s0 & ER & E).
  apply read_work_inv in ER as [-> EW].
  apply bind_return_inv in E as (A & s0 & ER & E).
  apply read_app_inv in ER as [-> EA].
  apply bind_return_inv in E as (cq & s0 & ER & E).
  apply dict_getitem_inv in ER as [-> EQ].
  apply bind_return_inv in E as (u & s0 & ER & E).
  apply set_run_inv in ER as (W0 & EW0 & ->).
  rewrite EW in EW0. injection EW0 as <-.
  exists W, A, cq. repeat split; assumption.
Qed.

End SuccessPath.

(** C6. Postcondition of a successful interception.  Whenever
    [_dynamic_run_wrapper] returns a value (which requires the work's name
    to be non-empty), the proxy was invoked in a heap in which [work.run] is
    the [ProxyWorkRun] built from the intercepted [work_run], the work's
    name, the work itself and the caller queue that the app's
    [caller_queues] holds under that name, and in which [work._backend] is
    the backend; the value returned, and the final heap, are those of
    calling that proxy with the intercepted positional and keyword
    arguments. *)
Theorem dynamic_run_wrapper_installs_proxy `{Collaborators}
    (self : Backend) (args : list Value) (app work : ref) (work_run : Callable)
    (kwargs : list (string * Value)) (s s' : World) (v : Value) :
  _dynamic_run_wrapper self args app work work_run kwargs s = (Return v, s') ->
  (exists W, works s !! work = Some W /\ name W <> "") /\
  exists s2 W2 A2 cq,
    works s2 !! work = Some W2 /\ apps s2 !! app = Some A2 /\
    run W2 = ProxyWorkRun work_run (name W2) work cq /\
    handle_of (caller_queues A2) (name W2) = Some cq /\
    _backend W2 = Some self /\
    proxy_call work_run (name W2) work cq args kwargs s2 = (Return v, s').
Proof.
  intros E.
  destruct (dynamic_run_wrapper_return_named _ _ _ _ _ _ _ _ _ E) as (W & EW & N).
  split; [eauto|].
  rewrite (dynamic_run_wrapper_named _ _ _ _ _ _ _ _ EW N) in E.
  apply bind_return_inv in E as (u1 & s1 & _ & E).
  apply bind_return_inv in E as (u2 & s2 & _ & E).
  apply bind_return_inv in E as (u3 & s3 & _ & E).
  apply bind_return_inv in E as (u4 & s4 & EB & E).
  apply set_backend_inv in EB as (W3 & EW3 & ->).
  apply install_proxy_and_run_inv in E as (W4 & A4 & cq & EW4 & EA4 & EQ & E).
  simpl in EW4, EA4, E. rewrite lookup_insert_eq in EW4. injection EW4 as <-.
  rewrite insert_insert_eq in E. simpl in E, EQ.
  eexists _, (with_run (ProxyWorkRun work_run (name W3) work cq) (with_backend self W3)),
    A4, cq.
  split; [|split; [|split; [|split; [|split]]]].
  6: exact E.
  - simpl. apply lookup_insert_eq.
  - exact EA4.
  - reflexivity.
  - exact EQ.
  - reflexivity.
Qed.

(** C10. [create_work] is given the unproxied entry point.  For a named
    work on an app whose registries are dictionaries, the registration
    succeeds and [work.run = work_run] is attempted next.  If the work
    refuses [work_run] (it is not the work's own entry method), the wrapper
    raises the [AttributeError] of that assignment in the heap left by the
    registration, and [create_work] is not reached.  If the work accepts
    it, [create_work] is invoked in the heap [s1] left by the registration
    and the assignment: there [work.run] is the raw [work_run] and
    [work._backend] is still what it was.  If [create_work] raises, the
    wrapper raises the same error and leaves the heap of [create_work]
    untouched; if it returns, the backend is attached first and only then
    is the proxy built, installed and run, starting from a heap in which
    [work.run] is still what [create_work] left. *)
Theorem create_work_sees_unwrapped_run `{Collaborators}
    (self : Backend) (args : list Value) (app work : ref) (work_run : Callable)
    (kwargs : list (string * Value)) (s : World) (W : LightningWork)
    (A : LightningApp) :
  works s !! work = Some W -> name W <> "" ->
  apps s !! app = Some A -> registries_ready A ->
  exists s0,
    _register_queues self app work s = (Return tt, s0) /\
    works s0 = works s /\
    (run_assignable W work_run = false ->
     _dynamic_run_wrapper self args app work work_run kwargs s =
     (Raise (AttributeError
               "Cannot set attributes that were not defined in __init__: run."), s0)) /\
    (run_assignable W work_run = true ->
     exists s1,
       set_run work work_run s0 = (Return tt, s1) /\
       works s1 !! work = Some (with_run work_run W) /\
       run (with_run work_run W) = work_run /\
       _backend (with_run work_run W) = _backend W /\
       match create_work self app work s1 with
       | (Raise e, s2) =>
           _dynamic_run_wrapper self args app work work_run kwargs s = (Raise e, s2)
       | (Return _, s2) =>
           forall W2, works s2 !! work = Some W2 ->
             _dynamic_run_wrapper self args app work work_run kwargs s =
             install_proxy_and_run args app work work_run kwargs
               {| apps := apps s2; works := <[work := with_backend self W2]> (works s2) |} /\
             run (with_backend self W2) = run W2 /\
             _backend (with_backend self W2) = Some self
       end).
Proof.
  intros EW N EA R.
  pose proof (register_queues_live self app work s W A EW EA R) as ER.
  eexists. split; [exact ER|]. split; [reflexivity|]. split.
  - intros G.
    rewrite (dynamic_run_wrapper_named _ _ _ _ _ _ _ _ EW N).
    rewrite (bind_return _ _ _ _ _ ER).
    erewrite bind_raise; [reflexivity|].
    apply (set_run_refused _ _ _ W); [exact EW | exact G].
  - intros G. eexists. split; [|split; [|split; [|split]]].
    + apply (set_run_live _ _ _ W); [exact EW | exact G].
    + simpl. apply lookup_insert_eq.
    + reflexivity.
    + reflexivity.
    + rewrite (dynamic_run_wrapper_named _ _ _ _ _ _ _ _ EW N).
      rewrite (bind_return _ _ _ _ _ ER).
      erewrite bind_return by (apply (set_run_live _ _ _ W); [exact EW | exact G]).
      destruct (create_work self app work _) as [[u|e] s2] eqn:EC.
      * intros W2 EW2. split; [|split; reflexivity].
        erewrite bind_return by exact EC.
        erewrite bind_return by (apply set_backend_live; exact EW2).
        reflexivity.
      * erewrite bind_raise by exact EC. reflexivity.
Qed.

(** ** The sample heap: scenarios *)

Import Sample.

Lemma local_create_work_frame self app work :
  preserves (frame app work) (create_work self app work).
Proof.
  simpl. apply preserves_bind; [apply preserves_read_work | intros W].
  apply preserves_update_registry. reflexivity.
Qed.

Lemma local_proxy_call_frame app work wr nm cq args kwargs :
  preserves (frame app work) (proxy_call wr nm work cq args kwargs).
Proof. intros s. apply frame_refl. Qed.

Lemma prepared_ready self : registries_ready (prepared self).
Proof. repeat split; eexists; reflexivity. Qed.

(** C3. Wrapping the same work twice, at the work "trainer" of the sample
    heap, whose [run] is its plain run method: the first call installs the
    partial, and the second call raises [AttributeError] instead of being a
    no-op. *)
Theorem wrap_run_method_twice_raises :
  _wrap_run_method backend_a 0 1 world1 = (Return tt, world_wrapped) /\
  run <$> works world_wrapped !! 1 = Some (Partial backend_a 0 1 (Method "run" 1)) /\
  _wrap_run_method backend_a 0 1 world_wrapped =
    (Raise (AttributeError "'functools.partial' object has no attribute '__name__'"),
     world_wrapped).
Proof. repeat split; vm_compute; reflexivity. Qed.

(** C2, as stated, fails.  In [world2] the five queues of "trainer" are
    registered (by [backend_a], queue id "a").  A second interception, by
    [backend_b], succeeds and registers again: the handles previously
    registered under "trainer" are replaced. *)
Lemma second_interception_replaces_handles :
  queue_handles (the_app world2) "trainer" =
    [ Some (mkQueue OrchestratorRequest "a" (Some "trainer"));
      Some (mkQueue OrchestratorResponse "a" (Some "trainer"));
      Some (mkQueue OrchestratorCopyRequest "a" (Some "trainer"));
      Some (mkQueue OrchestratorCopyResponse "a" (Some "trainer"));
      Some (mkQueue Caller "a" (Some "trainer")) ] /\
  fst (_dynamic_run_wrapper backend_b [VInt 5] 0 1 (Method "run" 1)
         [("batch", VInt 5)] world2) = Return (VStr "trainer") /\
  apps world3 !! 0 = Some (the_app world3) /\
  queue_handles (the_app world3) "trainer" <> queue_handles (the_app world2) "trainer".
Proof.
  split; [vm_compute; reflexivity|].
  split; [vm_compute; reflexivity|].
  split; [vm_compute; reflexivity|].
  vm_compute. discriminate.
Qed.

(** ** The theorems at the sample heap *)

(** The work at reference 3 was never attached: its run fails with the
    configuration error. *)
Lemma dynamic_run_wrapper_unnamed_raises_witness :
  works world1 !! 3 = Some (new_work "" 3) /\
  name (new_work "" 3) = "" /\
  fst (_dynamic_run_wrapper backend_a [VInt 5] 0 3 (Method "run" 3)
         [("batch", VInt 5)] world1) =
  Raise (AttributeError
    "Failed to create process for Trainer. Make sure to set this work as an attribute of a `LightningFlow` before calling the run method.").
Proof.
  split; [vm_compute; reflexivity|]. split; [reflexivity|].
  apply (dynamic_run_wrapper_unnamed_raises backend_a [VInt 5] 0 3 (Method "run" 3)
           [("batch", VInt 5)] world1 (new_work "" 3)).
  - vm_compute; reflexivity.
  - reflexivity.
Defined.

(** The same failing call leaves [world1] as it was. *)
Lemma dynamic_run_wrapper_unnamed_atomic_witness :
  works world1 !! 3 = Some (new_work "" 3) /\
  name (new_work "" 3) = "" /\
  let r := _dynamic_run_wrapper backend_a [VInt 5] 0 3 (Method "run" 3)
             [("batch", VInt 5)] world1 in
  (exists e, fst r = Raise e) /\
  snd r = world1 /\
  apps (snd r) = apps world1 /\
  works (snd r) !! 3 = Some (new_work "" 3) /\
  forall C' : Collaborators,
    @_dynamic_run_wrapper C' backend_a [VInt 5] 0 3 (Method "run" 3)
      [("batch", VInt 5)] world1 = r.
Proof.
  split; [vm_compute; reflexivity|]. split; [reflexivity|].
  apply (dynamic_run_wrapper_unnamed_atomic backend_a [VInt 5] 0 3 (Method "run" 3)
           [("batch", VInt 5)] world1 (new_work "" 3)).
  - vm_compute; reflexivity.
  - reflexivity.
Defined.

(** Registering "trainer" again, by [backend_b], in the heap where
    [backend_a] registered it. *)
Lemma register_queues_rebinds_witness :
  works world2 !! 1 = Some (the_work world2 1) /\
  apps world2 !! 0 = Some (the_app world2) /\
  registries_ready (the_app world2) /\
  exists A',
    _register_queues backend_b 0 1 world2 =
      (Return tt, {| apps := <[0 := A']> (apps world2); works := works world2 |}) /\
    queue_handles A' (name (the_work world2 1)) =
      [ Some (get_orchestrator_request_queue (queues backend_b) (queue_id backend_b)
                (name (the_work world2 1)));
        Some (get_orchestrator_response_queue (queues backend_b) (queue_id backend_b)
                (name (the_work world2 1)));
        Some (get_orchestrator_copy_request_queue (queues backend_b) (queue_id backend_b)
                (name (the_work world2 1)));
        Some (get_orchestrator_copy_response_queue (queues backend_b) (queue_id backend_b)
                (name (the_work world2 1)));
        Some (get_caller_queue (queues backend_b) (queue_id backend_b)
                (name (the_work world2 1))) ] /\
    (forall nm, nm <> name (the_work world2 1) ->
       queue_handles A' nm = queue_handles (the_app world2) nm) /\
    app_queues A' = app_queues (the_app world2) /\
    work_queues A' = work_queues (the_app world2).
Proof.
  assert (EW : works world2 !! 1 = Some (the_work world2 1)) by (vm_compute; reflexivity).
  assert (EA : apps world2 !! 0 = Some (the_app world2)) by (vm_compute; reflexivity).
  assert (R : registries_ready (the_app world2))
    by (repeat split; vm_compute; eexists; reflexivity).
  split; [exact EW|]. split; [exact EA|]. split; [exact R|].
  exact (register_queues_rebinds backend_b 0 1 world2 _ _ EW EA R).
Defined.

(** Intercepting the run of "trainer" leaves "worker-1" and the unnamed work
    alone. *)
Lemma dynamic_run_wrapper_frame_witness :
  (forall s, frame 0 1 s (snd (create_work backend_a 0 1 s))) /\
  (forall wr nm cq s,
     frame 0 1 s (snd (proxy_call wr nm 1 cq [VInt 5] [("batch", VInt 5)] s))) /\
  let s' := snd (_dynamic_run_wrapper backend_a [VInt 5] 0 1 (Method "run" 1)
                   [("batch", VInt 5)] world1) in
  frame 0 1 world1 s' /\
  forall w', w' <> 1 -> works s' !! w' = works world1 !! w'.
Proof.
  split; [exact (local_create_work_frame backend_a 0 1)|].
  split; [intros wr nm cq; exact (local_proxy_call_frame 0 1 wr nm cq _ _)|].
  apply (dynamic_run_wrapper_frame backend_a [VInt 5] 0 1 (Method "run" 1)
           [("batch", VInt 5)]).
  - exact (local_create_work_frame backend_a 0 1).
  - intros wr nm cq. exact (local_proxy_call_frame 0 1 wr nm cq _ _).
Defined.

(** The first interception of the run of "trainer" succeeds. *)
Lemma dynamic_run_wrapper_installs_proxy_witness :
  _dynamic_run_wrapper backend_a [VInt 5] 0 1 (Method "run" 1)
    [("batch", VInt 5)] world1 = (Return (VStr "trainer"), world2) /\
  (exists W, works world1 !! 1 = Some W /\ name W <> "") /\
  exists s2 W2 A2 cq,
    works s2 !! 1 = Some W2 /\ apps s2 !! 0 = Some A2 /\
    run W2 = ProxyWorkRun (Method "run" 1) (name W2) 1 cq /\
    handle_of (caller_queues A2) (name W2) = Some cq /\
    _backend W2 = Some backend_a /\
    proxy_call (Method "run" 1) (name W2) 1 cq [VInt 5] [("batch", VInt 5)] s2 =
      (Return (VStr "trainer"), world2).
Proof.
  assert (E : _dynamic_run_wrapper backend_a [VInt 5] 0 1 (Method "run" 1)
                [("batch", VInt 5)] world1 = (Return (VStr "trainer"), world2))
    by (vm_compute; reflexivity).
  split; [exact E|].
  exact (dynamic_run_wrapper_installs_proxy backend_a [VInt 5] 0 1 (Method "run" 1)
           [("batch", VInt 5)] world1 world2 (VStr "trainer") E).
Defined.

(** Wrapping "trainer" a second time, and wrapping it a first time. *)
Lemma wrap_run_method_raises_without_name_witness :
  works world_wrapped !! 1 = Some (the_work world_wrapped 1) /\
  dunder_name (run (the_work world_wrapped 1)) = None /\
  _wrap_run_method backend_b 0 1 world_wrapped =
    (Raise (AttributeError
       ("'" ++ type_name (run (the_work world_wrapped 1)) ++
        "' object has no attribute '__name__'")), world_wrapped) /\
  works world1 !! 1 = Some (new_work "trainer" 1) /\
  exists s1,
    _wrap_run_method backend_a 0 1 world1 = (Return tt, s1) /\
    run <$> works s1 !! 1 =
      Some (Partial backend_a 0 1 (unwrap (run (new_work "trainer" 1)))) /\
    _wrap_run_method backend_b 0 1 s1 =
      (Raise (AttributeError
         "'functools.partial' object has no attribute '__name__'"), s1).
Proof.
  assert (EW : works world_wrapped !! 1 = Some (the_work world_wrapped 1))
    by (vm_compute; reflexivity).
  assert (E1 : works world1 !! 1 = Some (new_work "trainer" 1))
    by (vm_compute; reflexivity).
  split; [exact EW|]. split; [reflexivity|].
  split.
  - exact (proj1 (wrap_run_method_raises_without_name backend_b backend_b 0 0 1
                    world_wrapped _ EW) eq_refl).
  - split; [exact E1|].
    apply (proj2 (wrap_run_method_raises_without_name backend_a backend_b 0 0 1
                    world1 _ E1) "run" 1 eq_refl).
    discriminate.
Defined.

(** Preparing the queues again after "trainer" was registered. *)
Lemma prepare_queues_resets_registries_witness :
  apps world2 !! 0 = Some (the_app world2) /\
  handle_of (caller_queues (the_app world2)) "trainer" =
    Some (mkQueue Caller "a" (Some "trainer")) /\
  exists A',
    _prepare_queues backend_a 0 world2 =
      (Return tt, {| apps := <[0 := A']> (apps world2); works := works world2 |}) /\
    request_queues A' = Some ∅ /\ response_queues A' = Some ∅ /\
    copy_request_queues A' = Some ∅ /\ copy_response_queues A' = Some ∅ /\
    caller_queues A' = Some ∅ /\ work_queues A' = Some ∅ /\
    forall nm, queue_handles A' nm = [None; None; None; None; None].
Proof.
  assert (EA : apps world2 !! 0 = Some (the_app world2)) by (vm_compute; reflexivity).
  split; [exact EA|]. split; [vm_compute; reflexivity|].
  exact (prepare_queues_resets_registries backend_a 0 world2 _ EA).
Defined.

(** The interception of the run of "trainer", up to [create_work]: with
    its own run method, and with the run method of "worker-1". *)
Lemma create_work_sees_unwrapped_run_witness :
  works world1 !! 1 = Some (new_work "trainer" 1) /\
  name (new_work "trainer" 1) <> "" /\
  apps world1 !! 0 = Some (prepared backend_a) /\
  registries_ready (prepared backend_a) /\
  run_assignable (new_work "trainer" 1) (Method "run" 1) = true /\
  run_assignable (new_work "trainer" 1) (Method "run" 2) = false /\
  (exists s0,
     _register_queues backend_a 0 1 world1 = (Return tt, s0) /\
     works s0 = works world1 /\
     exists s1,
       set_run 1 (Method "run" 1) s0 = (Return tt, s1) /\
       works s1 !! 1 = Some (with_run (Method "run" 1) (new_work "trainer" 1)) /\
       run (with_run (Method "run" 1) (new_work "trainer" 1)) = Method "run" 1 /\
       _backend (with_run (Method "run" 1) (new_work "trainer" 1)) =
         _backend (new_work "trainer" 1) /\
       match create_work backend_a 0 1 s1 with
       | (Raise e, s2) =>
           _dynamic_run_wrapper backend_a [VInt 5] 0 1 (Method "run" 1)
             [("batch", VInt 5)] world1 = (Raise e, s2)
       | (Return _, s2) =>
           forall W2, works s2 !! 1 = Some W2 ->
             _dynamic_run_wrapper backend_a [VInt 5] 0 1 (Method "run" 1)
               [("batch", VInt 5)] world1 =
             install_proxy_and_run [VInt 5] 0 1 (Method "run" 1) [("batch", VInt 5)]
               {| apps := apps s2;
                  works := <[1 := with_backend backend_a W2]> (works s2) |} /\
             run (with_backend backend_a W2) = run W2 /\
             _backend (with_backend backend_a W2) = Some backend_a
       end) /\
  (exists s0,
     _register_queues backend_a 0 1 world1 = (Return tt, s0) /\
     works s0 = works world1 /\
     _dynamic_run_wrapper backend_a [VInt 5] 0 1 (Method "run" 2)
       [("batch", VInt 5)] world1 =
     (Raise (AttributeError
               "Cannot set attributes that were not defined in __init__: run."), s0)).
Proof.
  assert (EW : works world1 !! 1 = Some (new_work "trainer" 1))
    by (vm_compute; reflexivity).
  assert (N : name (new_work "trainer" 1) <> "") by discriminate.
  assert (EA : apps world1 !! 0 = Some (prepared backend_a))
    by (vm_compute; reflexivity).
  assert (G1 : run_assignable (new_work "trainer" 1) (Method "run" 1) = true)
    by reflexivity.
  assert (G2 : run_assignable (new_work "trainer" 1) (Method "run" 2) = false)
    by reflexivity.
  split; [exact EW|]. split; [exact N|]. split; [exact EA|].
  split; [exact (prepared_ready backend_a)|].
  split; [exact G1|]. split; [exact G2|]. split.
  - destruct (create_work_sees_unwrapped_run backend_a [VInt 5] 0 1 (Method "run" 1)
                [("batch", VInt 5)] world1 _ _ EW N EA (prepared_ready backend_a))
      as (s0 & ER & EK & _ & Hyes).
    exists s0. split; [exact ER|]. split; [exact EK|]. exact (Hyes G1).
  - destruct (create_work_sees_unwrapped_run backend_a [VInt 5] 0 1 (Method "run" 2)
                [("batch", VInt 5)] world1 _ _ EW N EA (prepared_ready backend_a))
      as (s0 & ER & EK & Hno & _).
    exists s0. split; [exact ER|]. split; [exact EK|]. exact (Hno G2).
Defined.

(** ** Further properties of [_prepare_queues] and [_register_queues] *)

(** X1. On a live app [_prepare_queues] succeeds, and the app it leaves is
    determined by the backend alone: the five app-level queues are the
    handles its queuing system returns for the backend's queue id, the six
    registries are empty, and nothing of the app's earlier attributes
    survives.  The works and the other apps are untouched. *)
Theorem prepare_queues_overwrites_app (self : Backend) (app : ref) (s : World)
    (A : LightningApp) :
  apps s !! app = Some A ->
  _prepare_queues self app s =
  (Return tt,
   {| apps :=
        <[app :=
           {| delta_queue := Some (get_delta_queue (queues self) (queue_id self));
              readiness_queue := Some (get_readiness_queue (queues self) (queue_id self));
              error_queue := Some (get_error_queue (queues self) (queue_id self));
              api_publish_state_queue :=
                Some (get_api_state_publish_queue (queues self) (queue_id self));
              api_delta_queue := Some (get_api_delta_queue (queues self) (queue_id self));
              request_queues := Some ∅; response_queues := Some ∅;
              copy_request_queues := Some ∅; copy_response_queues := Some ∅;
              caller_queues := Some ∅; work_queues := Some ∅ |}]> (apps s);
      works := works s |}).
Proof. intros E. exact (prepare_queues_live self app s A E). Qed.

(** X2. Preparing the queues of the same app twice, by any two backends,
    is the same as preparing them once by the second backend: the last
    [_prepare_queues] wins, and in particular [_prepare_queues] is
    idempotent. *)
Theorem prepare_queues_last_wins (self1 self2 : Backend) (app : ref) (s : World) :
  (_prepare_queues self1 app ;;; _prepare_queues self2 app) s =
  _prepare_queues self2 app s.
Proof.
  destruct (apps s !! app) as [A|] eqn:E.
  - rewrite (bind_return _ _ _ _ _ (prepare_queues_live self1 app s A E)).
    erewrite !prepare_queues_live by (first [exact E | simpl; apply lookup_insert_eq]).
    simpl. now rewrite insert_insert_eq.
  - destruct (prepare_queues_dangling self1 app s E) as [E1 _].
    destruct (prepare_queues_dangling self2 app s E) as [E2 _].
    now rewrite (bind_raise _ _ _ _ _ E1), E2.
Qed.

(** X3. Registering a work right after [_prepare_queues] succeeds, and each
    of the request, response, copy-request, copy-response and caller
    registries then holds exactly one entry: the work's name, bound to the
    handle of the backend's queuing system for that name.  [work_queues]
    stays empty. *)
Theorem prepare_then_register (self : Backend) (app work : ref) (s : World)
    (A : LightningApp) (W : LightningWork) :
  apps s !! app = Some A -> works s !! work = Some W ->
  exists A',
    (_prepare_queues self app ;;; _register_queues self app work) s =
      (Return tt, {| apps := <[app := A']> (apps s); works := works s |}) /\
    request_queues A' =
      Some {[ name W := get_orchestrator_request_queue (queues self) (queue_id self) (name W) ]} /\
    response_queues A' =
      Some {[ name W := get_orchestrator_response_queue (queues self) (queue_id self) (name W) ]} /\
    copy_request_queues A' =
      Some {[ name W := get_orchestrator_copy_request_queue (queues self) (queue_id self) (name W) ]} /\
    copy_response_queues A' =
      Some {[ name W := get_orchestrator_copy_response_queue (queues self) (queue_id self) (name W) ]} /\
    caller_queues A' =
      Some {[ name W := get_caller_queue (queues self) (queue_id self) (name W) ]} /\
    work_queues A' = Some ∅ /\
    app_queues A' = app_queues (prepared self).
Proof.
  intros EA EW. exists (register_in self (name W) (prepared self)). split.
  - rewrite (bind_return _ _ _ _ _ (prepare_queues_live self app s A EA)).
    erewrite register_queues_live;
      [ | simpl; exact EW | simpl; apply lookup_insert_eq
        | repeat split; eexists; reflexivity ].
    simpl. now rewrite insert_insert_eq.
  - simpl. rewrite !insert_empty. repeat split; reflexivity.
Qed.

Section RegisterOutcomes.

Ltac run_register EW EA :=
  unfold _register_queues, update_registry, bind, read_work, read_app, lift,
    dict_update, write_app;
  rewrite EW; cbn [apps works]; rewrite EA;
  repeat (cbn [apps works request_queues response_queues copy_request_queues
                 copy_response_queues caller_queues with_request_queues
                 with_response_queues with_copy_request_queues
                 with_copy_response_queues with_caller_queues];
          rewrite ?lookup_insert_eq).

Lemma register_queues_dangling_work self app work s :
  works s !! work = None ->
  _register_queues self app work s = (Raise (InvalidReference work), s).
Proof. intros E. unfold _register_queues, bind, read_work. now rewrite E. Qed.

Lemma register_queues_dangling_app self app work s W :
  works s !! work = Some W -> apps s !! app = None ->
  _register_queues self app work s = (Raise (InvalidReference app), s).
Proof.
  intros EW EA.
  unfold _register_queues, update_registry, bind, read_work, read_app.
  rewrite EW. cbn [apps works]. now rewrite EA.
Qed.

Lemma register_queues_not_ready self app work s W A :
  works s !! work = Some W -> apps s !! app = Some A -> ~ registries_ready A ->
  exists s',
    _register_queues self app work s =
    (Raise (AttributeError "'NoneType' object has no attribute 'update'"), s').
Proof.
  intros EW EA NR.
  destruct A as [d r e ap ad [m1|] [m2|] [m3|] [m4|] [m5|] wq];
    try (exfalso; apply NR; repeat split; eexists; reflexivity);
    run_register EW EA; eexists; reflexivity.
Qed.

Lemma register_queues_return_inv self app work s u s' :
  _register_queues self app work s = (Return u, s') ->
  exists W A, works s !! work = Some W /\ apps s !! app = Some A /\ registries_ready A.
Proof.
  intros E.
  destruct (works s !! work) as [W|] eqn:EW.
  2: { rewrite (register_queues_dangling_work _ _ _ _ EW) in E. discriminate. }
  destruct (apps s !! app) as [A|] eqn:EA.
  2: { rewrite (register_queues_dangling_app _ _ _ _ _ EW EA) in E. discriminate. }
  exists W, A. split; [reflexivity|]. split; [reflexivity|].
  destruct A as [d r e ap ad [m1|] [m2|] [m3|] [m4|] [m5|] wq];
    try (repeat split; eexists; reflexivity);
    exfalso; revert E; run_register EW EA; discriminate.
Qed.

Lemma register_in_ready self nm A :
  registries_ready A -> registries_ready (register_in self nm A).
Proof.
  intros ([m1 R1] & [m2 R2] & [m3 R3] & [m4 R4] & [m5 R5]).
  unfold registries_ready, register_in. simpl. rewrite R1, R2, R3, R4, R5.
  repeat split; eexists; reflexivity.
Qed.

Lemma register_in_idem self nm A :
  register_in self nm (register_in self nm A) = register_in self nm A.
Proof.
  unfold register_in. simpl.
  destruct (request_queues A), (response_queues A), (copy_request_queues A),
    (copy_response_queues A), (caller_queues A); simpl;
    rewrite ?insert_insert_eq; reflexivity.
Qed.


End RegisterOutcomes.

(** X4. On a live work and a live app, [_register_queues] succeeds exactly
    when the five registries of the app are dictionaries; otherwise it
    raises the [AttributeError] of the first [update] looked up on
    [None]. *)
Theorem register_queues_succeeds_iff_ready (self : Backend) (app work : ref) (s : World)
    (W : LightningWork) (A : LightningApp) :
  works s !! work = Some W -> apps s !! app = Some A ->
  (registries_ready A /\
   _register_queues self app work s =
     (Return tt, {| apps := <[app := register_in self (name W) A]> (apps s);
                    works := works s |})) \/
  (~ registries_ready A /\
   exists s',
     _register_queues self app work s =
     (Raise (AttributeError "'NoneType' object has no attribute 'update'"), s')).
Proof.
  intros EW EA.
  assert (D : registries_ready A \/ ~ registries_ready A).
  { unfold registries_ready.
    destruct (request_queues A), (response_queues A), (copy_request_queues A),
      (copy_response_queues A), (caller_queues A);
      first [ left; repeat split; eexists; reflexivity
            | right; intros (H1 & H2 & H3 & H4 & H5);
              first [ now destruct H1 | now destruct H2 | now destruct H3
                    | now destruct H4 | now destruct H5 ] ]. }
  destruct D as [R|NR].
  - left. split; [exact R | now apply register_queues_live].
  - right. split; [exact NR | now apply (register_queues_not_ready self app work s W A)].
Qed.

(** X5. A failing registration is not atomic: when [request_queues] is a
    dictionary and [response_queues] is not, [_register_queues] raises, but
    the work's request queue has already been registered and stays
    registered. *)
Theorem register_queues_partial_failure (self : Backend) (app work : ref) (s : World)
    (W : LightningWork) (A : LightningApp) (m : gmap string QueueHandle) :
  works s !! work = Some W -> apps s !! app = Some A ->
  request_queues A = Some m -> response_queues A = None ->
  exists A',
    _register_queues self app work s =
      (Raise (AttributeError "'NoneType' object has no attribute 'update'"),
       {| apps := <[app := A']> (apps s); works := works s |}) /\
    handle_of (request_queues A') (name W) =
      Some (get_orchestrator_request_queue (queues self) (queue_id self) (name W)) /\
    (forall nm, nm <> name W ->
       handle_of (request_queues A') nm = handle_of (request_queues A) nm) /\
    response_queues A' = None /\
    copy_request_queues A' = copy_request_queues A /\
    copy_response_queues A' = copy_response_queues A /\
    caller_queues A' = caller_queues A.
Proof.
  intros EW EA R1 R2.
  exists (with_request_queues
            (Some (<[name W :=
                     get_orchestrator_request_queue (queues self) (queue_id self) (name W)]> m))
            A).
  split.
  - unfold _register_queues.
    rewrite (bind_return _ _ _ _ _ (read_work_live _ _ _ EW)). cbv zeta.
    erewrite bind_return by (eapply update_registry_live; eassumption).
    unfold bind at 1. unfold update_registry, bind, read_app, lift, dict_update.
    cbn [apps works]. rewrite lookup_insert_eq. cbn [response_queues with_request_queues].
    rewrite R2. reflexivity.
  - unfold handle_of. simpl. rewrite R1, R2. simpl.
    split; [apply lookup_insert_eq|].
    split; [intros nm N; apply lookup_insert_ne; intros E; now apply N|].
    repeat split; reflexivity.
Qed.


(** X7. Registering a work twice in a row through the same backend is the
    same as registering it once: the second registration stores the same
    handles again (a handle being determined by role, queue id and work
    name). *)
Theorem register_queues_idempotent (self : Backend) (app work : ref) (s : World) :
  (_register_queues self app work ;;; _register_queues self app work) s =
  _register_queues self app work s.
Proof.
  destruct (_register_queues self app work s) as [[[]|e] s'] eqn:E.
  - destruct (register_queues_return_inv _ _ _ _ _ _ E) as (W & A & EW & EA & R).
    rewrite (register_queues_live self app work s W A EW EA R) in E.
    injection E as <-.
    rewrite (bind_return _ _ _ _ _ (register_queues_live self app work s W A EW EA R)).
    erewrite (register_queues_live self app work _ W);
      [ | exact EW | simpl; apply lookup_insert_eq | now apply register_in_ready ].
    simpl. now rewrite insert_insert_eq, register_in_idem.
  - now rewrite (bind_raise _ _ _ _ _ E).
Qed.

(** ** Further properties of [_dynamic_run_wrapper] and [_wrap_run_method] *)

Section WrapperOutcomes.
Context `{Collaborators}.

Lemma register_queues_keeps_works self app work s :
  works (snd (_register_queues self app work s)) = works s.
Proof.
  destruct (works s !! work) as [W|] eqn:EW.
  2: { now rewrite (register_queues_dangling_work _ _ _ _ EW). }
  destruct (apps s !! app) as [A|] eqn:EA.
  2: { now rewrite (register_queues_dangling_app _ _ _ _ _ EW EA). }
  destruct A as [d r e ap ad [m1|] [m2|] [m3|] [m4|] [m5|] wq];
    unfold _register_queues, update_registry, bind, read_work, read_app, lift,
      dict_update, write_app;
    rewrite EW; cbn [apps works]; rewrite EA;
    repeat (cbn [apps works request_queues response_queues copy_request_queues
                   copy_response_queues caller_queues with_request_queues
                   with_response_queues with_copy_request_queues
                   with_copy_response_queues with_caller_queues];
            rewrite ?lookup_insert_eq);
    reflexivity.
Qed.

Lemma dynamic_run_wrapper_register_fails self args app work work_run kwargs s W e s' :
  works s !! work = Some W -> name W <> "" ->
  _register_queues self app work s = (Raise e, s') ->
  _dynamic_run_wrapper self args app work work_run kwargs s = (Raise e, s').
Proof.
  intros EW N E. rewrite (dynamic_run_wrapper_named _ _ _ _ _ _ _ _ EW N).
  now rewrite (bind_raise _ _ _ _ _ E).
Qed.

Lemma dynamic_run_wrapper_until_proxy self args app work work_run kwargs s W A s2 W2 :
  works s !! work = Some W -> name W <> "" ->
  apps s !! app = Some A -> registries_ready A ->
  run_assignable W work_run = true ->
  create_work self app work
    {| apps := <[app := register_in self (name W) A]> (apps s);
       works := <[work := with_run work_run W]> (works s) |} = (Return tt, s2) ->
  works s2 !! work = Some W2 ->
  _dynamic_run_wrapper self args app work work_run kwargs s =
  install_proxy_and_run args app work work_run kwargs
    {| apps := apps s2; works := <[work := with_backend self W2]> (works s2) |}.
Proof.
  intros EW N EA R G EC EW2.
  rewrite (dynamic_run_wrapper_named _ _ _ _ _ _ _ _ EW N).
  rewrite (bind_return _ _ _ _ _ (register_queues_live self app work s W A EW EA R)).
  erewrite bind_return by (apply (set_run_live _ _ _ W); [simpl; exact EW | exact G]).
  simpl. erewrite bind_return by exact EC.
  erewrite bind_return by (apply set_backend_live; exact EW2).
  reflexivity.
Qed.

End WrapperOutcomes.

(** X8. Interception on an app whose registries are not all dictionaries
    (for instance before [_prepare_queues] ran) fails in the registration
    step with [AttributeError]: no work is changed, so [work.run] is still
    the callable that was intercepted, and the outcome does not depend on
    [create_work] or on the proxy, which are not reached. *)
Theorem dynamic_run_wrapper_unprepared `{C : Collaborators}
    (self : Backend) (args : list Value) (app work : ref) (work_run : Callable)
    (kwargs : list (string * Value)) (s : World) (W : LightningWork)
    (A : LightningApp) :
  works s !! work = Some W -> name W <> "" ->
  apps s !! app = Some A -> ~ registries_ready A ->
  exists s',
    _dynamic_run_wrapper self args app work work_run kwargs s =
      (Raise (AttributeError "'NoneType' object has no attribute 'update'"), s') /\
    works s' = works s /\
    forall C' : Collaborators,
      @_dynamic_run_wrapper C' self args app work work_run kwargs s =
      (Raise (AttributeError "'NoneType' object has no attribute 'update'"), s').
Proof.
  intros EW N EA NR.
  destruct (register_queues_not_ready self app work s W A EW EA NR) as [s' E].
  exists s'. split; [|split].
  - now apply (dynamic_run_wrapper_register_fails _ _ _ _ _ _ _ W).
  - pose proof (register_queues_keeps_works self app work s) as K.
    now rewrite E in K.
  - intros C'. now apply (dynamic_run_wrapper_register_fails _ _ _ _ _ _ _ W).
Qed.

(** X9. The success path up to the proxy call.  For a named work that
    accepts [work_run] as its run (it is the work's own entry method), on an
    app whose registries are dictionaries, if [create_work] returns and
    leaves the work's name and the app's caller registry as they were, then the
    outcome of [_dynamic_run_wrapper] is the outcome of calling the proxy
    built with the caller queue that step 1 registered (the handle of the
    backend's queuing system for the backend's queue id and the work's
    name), in a heap where [work.run] is that proxy and [work._backend] is
    the backend. *)
Theorem dynamic_run_wrapper_calls_proxy `{Collaborators}
    (self : Backend) (args : list Value) (app work : ref) (work_run : Callable)
    (kwargs : list (string * Value)) (s s2 : World) (W W2 : LightningWork)
    (A A2 : LightningApp) :
  works s !! work = Some W -> name W <> "" ->
  apps s !! app = Some A -> registries_ready A ->
  run_assignable W work_run = true ->
  create_work self app work
    {| apps := <[app := register_in self (name W) A]> (apps s);
       works := <[work := with_run work_run W]> (works s) |} = (Return tt, s2) ->
  works s2 !! work = Some W2 -> name W2 = name W ->
  apps s2 !! app = Some A2 ->
  caller_queues A2 = caller_queues (register_in self (name W) A) ->
  let cq := get_caller_queue (queues self) (queue_id self) (name W) in
  let proxy := ProxyWorkRun work_run (name W) work cq in
  _dynamic_run_wrapper self args app work work_run kwargs s =
  proxy_call work_run (name W) work cq args kwargs
    {| apps := apps s2;
       works := <[work := {| name := name W; class_name := class_name W2;
                             run := proxy; _backend := Some self |}]> (works s2) |}.
Proof.
  intros EW N EA R GA EC EW2 EN EA2 EQ cq proxy.
  rewrite (dynamic_run_wrapper_until_proxy self args app work work_run kwargs
             s W A s2 W2 EW N EA R GA EC EW2).
  unfold install_proxy_and_run.
  erewrite bind_return by (apply read_work_live; simpl; apply lookup_insert_eq).
  erewrite bind_return by (apply read_app_live; simpl; exact EA2).
  destruct R as (_ & _ & _ & _ & [m5 R5]).
  assert (G : dict_getitem (caller_queues A2) (name (with_backend self W2)) = Return cq).
  { rewrite EQ. simpl. rewrite R5, EN. simpl. now rewrite lookup_insert_eq. }
  unfold lift at 1. unfold bind at 1. rewrite G.
  erewrite bind_return
    by (eapply set_run_live; [simpl; apply lookup_insert_eq | reflexivity]).
  simpl. rewrite insert_insert_eq, EN.
  unfold with_run, with_backend. simpl. now rewrite EN.
Qed.

(** X10. For a named work that accepts [work_run] as its run, if
    [create_work] returns but the app's [caller_queues] then holds no entry
    under the work's name, step 4 raises [KeyError] for that name:
    the backend is already attached to the work, but [work.run] is what
    [create_work] left, not a proxy, and the proxy is never called. *)
Theorem dynamic_run_wrapper_missing_caller_queue `{Collaborators}
    (self : Backend) (args : list Value) (app work : ref) (work_run : Callable)
    (kwargs : list (string * Value)) (s s2 : World) (W W2 : LightningWork)
    (A A2 : LightningApp) (m : gmap string QueueHandle) :
  works s !! work = Some W -> name W <> "" ->
  apps s !! app = Some A -> registries_ready A ->
  run_assignable W work_run = true ->
  create_work self app work
    {| apps := <[app := register_in self (name W) A]> (apps s);
       works := <[work := with_run work_run W]> (works s) |} = (Return tt, s2) ->
  works s2 !! work = Some W2 -> apps s2 !! app = Some A2 ->
  caller_queues A2 = Some m -> m !! name W2 = None ->
  _dynamic_run_wrapper self args app work work_run kwargs s =
  (Raise (KeyError (name W2)),
   {| apps := apps s2;
      works := <[work := {| name := name W2; class_name := class_name W2;
                            run := run W2; _backend := Some self |}]> (works s2) |}).
Proof.
  intros EW N EA R G EC EW2 EA2 EQ EM.
  rewrite (dynamic_run_wrapper_until_proxy self args app work work_run kwargs
             s W A s2 W2 EW N EA R G EC EW2).
  unfold install_proxy_and_run.
  erewrite bind_return by (apply read_work_live; simpl; apply lookup_insert_eq).
  erewrite bind_return by (apply read_app_live; simpl; exact EA2).
  unfold lift at 1. unfold bind at 1. rewrite EQ. simpl. rewrite EM. reflexivity.
Qed.

(** X11. [_wrap_run_method] changes at most the [run] attribute of the work
    it is given: the apps, the other works and the work's name, class and
    [_backend] are as before whatever the outcome, and [run] is either
    untouched or the partial of [_dynamic_run_wrapper] carrying this
    backend, app and work and the unwrapped former [run]. *)
Theorem wrap_run_method_changes_only_run `{Collaborators}
    (self : Backend) (app work : ref) (s : World) (W : LightningWork) :
  works s !! work = Some W ->
  let s' := snd (_wrap_run_method self app work s) in
  apps s' = apps s /\
  (forall w', w' <> work -> works s' !! w' = works s !! w') /\
  exists W',
    works s' !! work = Some W' /\
    name W' = name W /\ class_name W' = class_name W /\ _backend W' = _backend W /\
    (run W' = run W \/ run W' = Partial self app work (unwrap (run W))).
Proof.
  intros EW s'. subst s'. unfold _wrap_run_method.
  rewrite (bind_return _ _ _ _ _ (read_work_live _ _ _ EW)).
  assert (Same : apps s = apps s /\
                 (forall w', w' <> work -> works s !! w' = works s !! w') /\
                 exists W',
                   works s !! work = Some W' /\
                   name W' = name W /\ class_name W' = class_name W /\
                   _backend W' = _backend W /\
                   (run W' = run W \/ run W' = Partial self app work (unwrap (run W)))).
  { split; [reflexivity|]. split; [reflexivity|]. exists W. auto 10. }
  destruct (dunder_name (run W)) as [n|]; [|exact Same].
  destruct (String.eqb n "_dynamic_run_wrapper"); [exact Same|].
  rewrite (set_run_live work (Partial self app work (unwrap (run W))) s W EW eq_refl).
  simpl. split; [reflexivity|]. split.
  - intros w' N. now apply lookup_insert_ne.
  - eexists. split; [apply lookup_insert_eq|]. simpl. auto 10.
Qed.

(** ** The profiler example *)

(** X12. [cli_main] only ever appends to [sys.argv]: the arguments given
    are kept in place, and either nothing is added or exactly one argument
    was given and [DEFAULT_CMD_LINE] follows it.  Afterwards [sys.argv]
    never consists of the script name alone, so a second [cli_main] adds
    nothing and builds the command-line interface from the same
    arguments. *)
Theorem cli_main_appends_defaults_once {R} (LightningCLI : list string -> R)
    (cuda : bool) (argv : list string) :
  let argv' := fst (ProfilerExample.cli_main LightningCLI cuda argv) in
  (exists extra, argv' = (argv ++ extra)%list) /\
  ((length argv = 1 /\ argv' = (argv ++ ProfilerExample.DEFAULT_CMD_LINE cuda)%list) \/
   (length argv <> 1 /\ argv' = argv)) /\
  length argv' <> 1 /\
  fst (ProfilerExample.cli_main LightningCLI cuda argv') = argv' /\
  snd (ProfilerExample.cli_main LightningCLI cuda argv') =
    snd (ProfilerExample.cli_main LightningCLI cuda argv).
Proof.
  unfold ProfilerExample.cli_main. cbn [fst snd].
  destruct (Nat.eqb_spec (length argv) 1) as [E|N].
  - assert (L : length (argv ++ ProfilerExample.DEFAULT_CMD_LINE cuda)%list = 8).
    { rewrite length_app, E. reflexivity. }
    rewrite L. cbn [Nat.eqb].
    split; [eexists; reflexivity|]. split; [left; now split|].
    split; [lia|]. now split.
  - destruct (Nat.eqb_spec (length argv) 1) as [E|_]; [now destruct N|].
    split; [exists []; now rewrite app_nil_r|]. split; [right; now split|].
    split; [exact N|]. now split.
Qed.

(** ** The further properties at the sample heaps *)

Lemma prepare_queues_overwrites_app_witness :
  apps world2 !! 0 = Some (the_app world2) /\
  _prepare_queues backend_b 0 world2 =
  (Return tt,
   {| apps :=
        <[0 :=
           {| delta_queue := Some (get_delta_queue (queues backend_b) (queue_id backend_b));
              readiness_queue :=
                Some (get_readiness_queue (queues backend_b) (queue_id backend_b));
              error_queue := Some (get_error_queue (queues backend_b) (queue_id backend_b));
              api_publish_state_queue :=
                Some (get_api_state_publish_queue (queues backend_b) (queue_id backend_b));
              api_delta_queue :=
                Some (get_api_delta_queue (queues backend_b) (queue_id backend_b));
              request_queues := Some ∅; response_queues := Some ∅;
              copy_request_queues := Some ∅; copy_response_queues := Some ∅;
              caller_queues := Some ∅; work_queues := Some ∅ |}]> (apps world2);
      works := works world2 |}).
Proof.
  assert (EA : apps world2 !! 0 = Some (the_app world2)) by (vm_compute; reflexivity).
  split; [exact EA|].
  exact (prepare_queues_overwrites_app backend_b 0 world2 _ EA).
Defined.

Lemma prepare_then_register_witness :
  apps world0 !! 0 = Some fresh_app /\
  works world0 !! 1 = Some (new_work "trainer" 1) /\
  exists A',
    (_prepare_queues backend_a 0 ;;; _register_queues backend_a 0 1) world0 =
      (Return tt, {| apps := <[0 := A']> (apps world0); works := works world0 |}) /\
    request_queues A' = Some {[ "trainer" := mkQueue OrchestratorRequest "a" (Some "trainer") ]} /\
    response_queues A' = Some {[ "trainer" := mkQueue OrchestratorResponse "a" (Some "trainer") ]} /\
    copy_request_queues A' =
      Some {[ "trainer" := mkQueue OrchestratorCopyRequest "a" (Some "trainer") ]} /\
    copy_response_queues A' =
      Some {[ "trainer" := mkQueue OrchestratorCopyResponse "a" (Some "trainer") ]} /\
    caller_queues A' = Some {[ "trainer" := mkQueue Caller "a" (Some "trainer") ]} /\
    work_queues A' = Some ∅ /\
    app_queues A' = app_queues (prepared backend_a).
Proof.
  assert (EA : apps world0 !! 0 = Some fresh_app) by (vm_compute; reflexivity).
  assert (EW : works world0 !! 1 = Some (new_work "trainer" 1)) by (vm_compute; reflexivity).
  split; [exact EA|]. split; [exact EW|].
  exact (prepare_then_register backend_a 0 1 world0 _ _ EA EW).
Defined.

Lemma half_ready_not_ready : ~ registries_ready Scenarios.half_ready_app.
Proof. intros (_ & [m E] & _). discriminate E. Qed.

Lemma register_queues_succeeds_iff_ready_witness :
  works Scenarios.half_ready_world !! 1 = Some (new_work "trainer" 1) /\
  apps Scenarios.half_ready_world !! 0 = Some Scenarios.half_ready_app /\
  ((registries_ready Scenarios.half_ready_app /\
    _register_queues backend_a 0 1 Scenarios.half_ready_world =
      (Return tt,
       {| apps := <[0 := register_in backend_a (name (new_work "trainer" 1))
                            Scenarios.half_ready_app]>
                    (apps Scenarios.half_ready_world);
          works := works Scenarios.half_ready_world |})) \/
   (~ registries_ready Scenarios.half_ready_app /\
    exists s',
      _register_queues backend_a 0 1 Scenarios.half_ready_world =
      (Raise (AttributeError "'NoneType' object has no attribute 'update'"), s'))).
Proof.
  assert (EW : works Scenarios.half_ready_world !! 1 = Some (new_work "trainer" 1))
    by (vm_compute; reflexivity).
  assert (EA : apps Scenarios.half_ready_world !! 0 = Some Scenarios.half_ready_app)
    by (vm_compute; reflexivity).
  split; [exact EW|]. split; [exact EA|].
  exact (register_queues_succeeds_iff_ready backend_a 0 1 Scenarios.half_ready_world
           _ _ EW EA).
Defined.

Lemma register_queues_partial_failure_witness :
  works Scenarios.half_ready_world !! 1 = Some (new_work "trainer" 1) /\
  apps Scenarios.half_ready_world !! 0 = Some Scenarios.half_ready_app /\
  request_queues Scenarios.half_ready_app =
    Some {[ "other" := mkQueue OrchestratorRequest "a" (Some "other") ]} /\
  response_queues Scenarios.half_ready_app = None /\
  exists A',
    _register_queues backend_a 0 1 Scenarios.half_ready_world =
      (Raise (AttributeError "'NoneType' object has no attribute 'update'"),
       {| apps := <[0 := A']> (apps Scenarios.half_ready_world);
          works := works Scenarios.half_ready_world |}) /\
    handle_of (request_queues A') (name (new_work "trainer" 1)) =
      Some (get_orchestrator_request_queue (queues backend_a) (queue_id backend_a)
              (name (new_work "trainer" 1))) /\
    (forall nm, nm <> name (new_work "trainer" 1) ->
       handle_of (request_queues A') nm =
       handle_of (request_queues Scenarios.half_ready_app) nm) /\
    response_queues A' = None /\
    copy_request_queues A' = copy_request_queues Scenarios.half_ready_app /\
    copy_response_queues A' = copy_response_queues Scenarios.half_ready_app /\
    caller_queues A' = caller_queues Scenarios.half_ready_app.
Proof.
  assert (EW : works Scenarios.half_ready_world !! 1 = Some (new_work "trainer" 1))
    by (vm_compute; reflexivity).
  assert (EA : apps Scenarios.half_ready_world !! 0 = Some Scenarios.half_ready_app)
    by (vm_compute; reflexivity).
  split; [exact EW|]. split; [exact EA|]. split; [reflexivity|]. split; [reflexivity|].
  exact (register_queues_partial_failure backend_a 0 1 Scenarios.half_ready_world
           _ _ _ EW EA eq_refl eq_refl).
Defined.


Lemma dynamic_run_wrapper_unprepared_witness :
  works Scenarios.half_ready_world !! 1 = Some (new_work "trainer" 1) /\
  name (new_work "trainer" 1) <> "" /\
  apps Scenarios.half_ready_world !! 0 = Some Scenarios.half_ready_app /\
  ~ registries_ready Scenarios.half_ready_app /\
  exists s',
    _dynamic_run_wrapper backend_a [VInt 5] 0 1 (Method "run" 1) [("batch", VInt 5)]
      Scenarios.half_ready_world =
      (Raise (AttributeError "'NoneType' object has no attribute 'update'"), s') /\
    works s' = works Scenarios.half_ready_world /\
    forall C' : Collaborators,
      @_dynamic_run_wrapper C' backend_a [VInt 5] 0 1 (Method "run" 1)
        [("batch", VInt 5)] Scenarios.half_ready_world =
      (Raise (AttributeError "'NoneType' object has no attribute 'update'"), s').
Proof.
  assert (EW : works Scenarios.half_ready_world !! 1 = Some (new_work "trainer" 1))
    by (vm_compute; reflexivity).
  assert (N : name (new_work "trainer" 1) <> "") by discriminate.
  assert (EA : apps Scenarios.half_ready_world !! 0 = Some Scenarios.half_ready_app)
    by (vm_compute; reflexivity).
  split; [exact EW|]. split; [exact N|]. split; [exact EA|].
  split; [exact half_ready_not_ready|].
  exact (dynamic_run_wrapper_unprepared backend_a [VInt 5] 0 1 (Method "run" 1)
           [("batch", VInt 5)] Scenarios.half_ready_world _ _ EW N EA
           half_ready_not_ready).
Defined.

Lemma dynamic_run_wrapper_calls_proxy_witness :
  let s1 := {| apps := <[0 := register_in backend_a (name (new_work "trainer" 1))
                             (prepared backend_a)]> (apps world1);
               works := <[1 := with_run (Method "run" 1) (new_work "trainer" 1)]>
                          (works world1) |} in
  let s2 := snd (create_work backend_a 0 1 s1) in
  works world1 !! 1 = Some (new_work "trainer" 1) /\
  name (new_work "trainer" 1) <> "" /\
  apps world1 !! 0 = Some (prepared backend_a) /\
  registries_ready (prepared backend_a) /\
  run_assignable (new_work "trainer" 1) (Method "run" 1) = true /\
  create_work backend_a 0 1 s1 = (Return tt, s2) /\
  works s2 !! 1 = Some (the_work s2 1) /\
  name (the_work s2 1) = name (new_work "trainer" 1) /\
  apps s2 !! 0 = Some (the_app s2) /\
  caller_queues (the_app s2) =
    caller_queues (register_in backend_a (name (new_work "trainer" 1))
                     (prepared backend_a)) /\
  _dynamic_run_wrapper backend_a [VInt 5] 0 1 (Method "run" 1) [("batch", VInt 5)] world1 =
  proxy_call (Method "run" 1) (name (new_work "trainer" 1)) 1
    (get_caller_queue (queues backend_a) (queue_id backend_a)
       (name (new_work "trainer" 1)))
    [VInt 5] [("batch", VInt 5)]
    {| apps := apps s2;
       works :=
         <[1 := {| name := name (new_work "trainer" 1);
                   class_name := class_name (the_work s2 1);
                   run := ProxyWorkRun (Method "run" 1) (name (new_work "trainer" 1)) 1
                            (get_caller_queue (queues backend_a) (queue_id backend_a)
                               (name (new_work "trainer" 1)));
                   _backend := Some backend_a |}]> (works s2) |}.
Proof.
  intros s1 s2.
  assert (EW : works world1 !! 1 = Some (new_work "trainer" 1)) by (vm_compute; reflexivity).
  assert (N : name (new_work "trainer" 1) <> "") by discriminate.
  assert (EA : apps world1 !! 0 = Some (prepared backend_a)) by (vm_compute; reflexivity).
  assert (EC : create_work backend_a 0 1 s1 = (Return tt, s2)) by (vm_compute; reflexivity).
  assert (EW2 : works s2 !! 1 = Some (the_work s2 1)) by (vm_compute; reflexivity).
  assert (EN : name (the_work s2 1) = name (new_work "trainer" 1))
    by (vm_compute; reflexivity).
  assert (EA2 : apps s2 !! 0 = Some (the_app s2)) by (vm_compute; reflexivity).
  assert (EQ : caller_queues (the_app s2) =
               caller_queues (register_in backend_a (name (new_work "trainer" 1))
                                (prepared backend_a)))
    by (vm_compute; reflexivity).
  split; [exact EW|]. split; [exact N|]. split; [exact EA|].
  split; [exact (prepared_ready backend_a)|]. split; [reflexivity|]. split; [exact EC|].
  split; [exact EW2|]. split; [exact EN|]. split; [exact EA2|]. split; [exact EQ|].
  exact (dynamic_run_wrapper_calls_proxy backend_a [VInt 5] 0 1 (Method "run" 1)
           [("batch", VInt 5)] world1 s2 _ _ _ _ EW N EA (prepared_ready backend_a)
           eq_refl EC EW2 EN EA2 EQ).
Defined.

Lemma dynamic_run_wrapper_missing_caller_queue_witness :
  let s1 := {| apps := <[0 := register_in backend_a (name (new_work "trainer" 1))
                             (prepared backend_a)]> (apps world1);
               works := <[1 := with_run (Method "run" 1) (new_work "trainer" 1)]>
                          (works world1) |} in
  let s2 := snd (@create_work Scenarios.forgetful backend_a 0 1 s1) in
  works world1 !! 1 = Some (new_work "trainer" 1) /\
  name (new_work "trainer" 1) <> "" /\
  apps world1 !! 0 = Some (prepared backend_a) /\
  registries_ready (prepared backend_a) /\
  @run_assignable Scenarios.forgetful (new_work "trainer" 1) (Method "run" 1) = true /\
  @create_work Scenarios.forgetful backend_a 0 1 s1 = (Return tt, s2) /\
  works s2 !! 1 = Some (the_work s2 1) /\
  apps s2 !! 0 = Some (the_app s2) /\
  caller_queues (the_app s2) = Some ∅ /\
  (∅ : gmap string QueueHandle) !! name (the_work s2 1) = None /\
  @_dynamic_run_wrapper Scenarios.forgetful backend_a [VInt 5] 0 1 (Method "run" 1)
    [("batch", VInt 5)] world1 =
  (Raise (KeyError (name (the_work s2 1))),
   {| apps := apps s2;
      works := <[1 := {| name := name (the_work s2 1);
                         class_name := class_name (the_work s2 1);
                         run := run (the_work s2 1);
                         _backend := Some backend_a |}]> (works s2) |}).
Proof.
  intros s1 s2.
  assert (EW : works world1 !! 1 = Some (new_work "trainer" 1)) by (vm_compute; reflexivity).
  assert (N : name (new_work "trainer" 1) <> "") by discriminate.
  assert (EA : apps world1 !! 0 = Some (prepared backend_a)) by (vm_compute; reflexivity).
  assert (EC : @create_work Scenarios.forgetful backend_a 0 1 s1 = (Return tt, s2))
    by (vm_compute; reflexivity).
  assert (EW2 : works s2 !! 1 = Some (the_work s2 1)) by (vm_compute; reflexivity).
  assert (EA2 : apps s2 !! 0 = Some (the_app s2)) by (vm_compute; reflexivity).
  assert (EQ : caller_queues (the_app s2) = Some ∅) by (vm_compute; reflexivity).
  assert (EM : (∅ : gmap string QueueHandle) !! name (the_work s2 1) = None)
    by (vm_compute; reflexivity).
  split; [exact EW|]. split; [exact N|]. split; [exact EA|].
  split; [exact (prepared_ready backend_a)|]. split; [reflexivity|]. split; [exact EC|].
  split; [exact EW2|]. split; [exact EA2|]. split; [exact EQ|]. split; [exact EM|].
  exact (@dynamic_run_wrapper_missing_caller_queue Scenarios.forgetful backend_a
           [VInt 5] 0 1 (Method "run" 1) [("batch", VInt 5)] world1 s2 _ _ _ _ ∅
           EW N EA (prepared_ready backend_a) eq_refl EC EW2 EA2 EQ EM).
Defined.

Lemma wrap_run_method_changes_only_run_witness :
  works world1 !! 1 = Some (new_work "trainer" 1) /\
  let s' := snd (_wrap_run_method backend_a 0 1 world1) in
  apps s' = apps world1 /\
  (forall w', w' <> 1 -> works s' !! w' = works world1 !! w') /\
  exists W',
    works s' !! 1 = Some W' /\
    name W' = name (new_work "trainer" 1) /\
    class_name W' = class_name (new_work "trainer" 1) /\
    _backend W' = _backend (new_work "trainer" 1) /\
    (run W' = run (new_work "trainer" 1) \/
     run W' = Partial backend_a 0 1 (unwrap (run (new_work "trainer" 1)))).
Proof.
  assert (EW : works world1 !! 1 = Some (new_work "trainer" 1)) by (vm_compute; reflexivity).
  split; [exact EW|].
  exact (wrap_run_method_changes_only_run backend_a 0 1 world1 _ EW).
Defined.
